(** * Travel Concierge MCP server: request building, validation and result
    envelopes of [travel_server.py], as a shallow embedding.

    Every tool of the server is a function from a [world] (the providers,
    the environment and the clock) and the tool's arguments to an [outcome]:
    the outbound calls the invocation made, in order, and the value it
    returned. *)

From Stdlib Require Import ZArith QArith List String Ascii Bool Lia.
From stdpp Require Import base gmap strings list pretty.

Set Warnings "-register-all".

Local Open Scope string_scope.
Local Open Scope Z_scope.

(** ** Python values *)

(** The values that travel through the server: JSON trees read from the
    providers, and the dictionaries the tools build. A Python [dict] keeps
    insertion order, so an object is an association list with unique keys.
    A Python [float] is carried as the rational it denotes; the server never
    computes on floats except through [round], [*] and [float()], which are
    primitives of the [world]. *)
Inductive json : Type :=
| JNull
| JBool (b : bool)
| JInt (n : Z)
| JFloat (q : Q)
| JStr (s : string)
| JArr (xs : list json)
| JObj (kvs : list (string * json)).

(** Python exceptions, by the classes the handlers of the server tell apart.
    [Exception] stands for every class no handler names. *)
Inductive exn : Type :=
| RequestException (msg : string)
| ValueError (msg : string)
| ResponseError (msg : string)
| AttributeError (msg : string)
| GeocoderTimedOut (msg : string)
| GeocoderUnavailable (msg : string)
| TypeError (msg : string)
| IndexError (msg : string)
| KeyError (msg : string)
| Exception (msg : string).

(** [str(e)] *)
Definition str_exn (e : exn) : string :=
  match e with
  | RequestException m | ValueError m | ResponseError m | AttributeError m
  | GeocoderTimedOut m | GeocoderUnavailable m | TypeError m | IndexError m
  | KeyError m | Exception m => m
  end.

(** [d[k]] lookup in the association list of a dict *)
Fixpoint assoc_get (k : string) (kvs : list (string * json)) : option json :=
  match kvs with
  | [] => None
  | (k', v) :: rest => if String.eqb k k' then Some v else assoc_get k rest
  end.

(** [d[k] = v]: overwrite in place, or append a new key *)
Fixpoint assoc_set (k : string) (v : json) (kvs : list (string * json))
  : list (string * json) :=
  match kvs with
  | [] => [(k, v)]
  | (k', v') :: rest =>
      if String.eqb k k' then (k, v) :: rest else (k', v') :: assoc_set k v rest
  end.

Definition keys (j : json) : list string :=
  match j with
  | JObj kvs => map fst kvs
  | _ => []
  end.

Definition field (k : string) (j : json) : option json :=
  match j with
  | JObj kvs => assoc_get k kvs
  | _ => None
  end.

(** Truth value of a Python object: [None], [False], zero, and the empty
    string, list and dict are false. *)
Definition truthy (j : json) : bool :=
  match j with
  | JNull => false
  | JBool b => b
  | JInt n => negb (n =? 0)
  | JFloat q => negb (Qeq_bool q 0)
  | JStr s => negb (String.eqb s "")
  | JArr xs => match xs with [] => false | _ => true end
  | JObj kvs => match kvs with [] => false | _ => true end
  end.

(** Truth value of optional arguments: [if x:] *)
Definition truthy_str (o : option string) : bool :=
  match o with
  | Some s => negb (String.eqb s "")
  | None => false
  end.

Definition truthy_int (o : option Z) : bool :=
  match o with
  | Some n => negb (n =? 0)
  | None => false
  end.

Definition truthy_list {A} (o : option (list A)) : bool :=
  match o with
  | Some (_ :: _) => true
  | _ => false
  end.

(** [x is not None] *)
Definition is_not_None {A} (o : option A) : bool :=
  match o with
  | Some _ => true
  | None => false
  end.

(** [x or y] *)
Definition py_or (x y : json) : json := if truthy x then x else y.

Definition opt_json {A} (f : A -> json) (o : option A) : json :=
  match o with
  | Some a => f a
  | None => JNull
  end.

(** [l[:m]]: a negative bound counts from the end of the list. *)
Definition slice_to {A} (m : Z) (l : list A) : list A :=
  if 0 <=? m then take (Z.to_nat m) l
  else take (Z.to_nat (Z.of_nat (length l) + m)) l.

(** [l[i]] on a list: a negative index counts from the end; outside
    [-len, len) it raises IndexError. *)
Definition py_index {A} (l : list A) (i : Z) : exn + A :=
  let n := Z.of_nat (length l) in
  let j := if i <? 0 then i + n else i in
  if (0 <=? j) && (j <? n) then
    match l !! Z.to_nat j with
    | Some a => inr a
    | None => inl (IndexError "list index out of range")
    end
  else inl (IndexError "list index out of range").

(** [str.lower()] and [str.upper()], on the ASCII letters. *)
Definition lower_ascii (c : ascii) : ascii :=
  let n := nat_of_ascii c in
  if (65 <=? n)%nat && (n <=? 90)%nat then ascii_of_nat (n + 32) else c.

Definition upper_ascii (c : ascii) : ascii :=
  let n := nat_of_ascii c in
  if (97 <=? n)%nat && (n <=? 122)%nat then ascii_of_nat (n - 32) else c.

Fixpoint lower (s : string) : string :=
  match s with
  | EmptyString => EmptyString
  | String c r => String (lower_ascii c) (lower r)
  end.

Fixpoint upper (s : string) : string :=
  match s with
  | EmptyString => EmptyString
  | String c r => String (upper_ascii c) (upper r)
  end.

(** [s.split(",")] *)
Fixpoint split_comma_go (cur : string) (s : string) : list string :=
  match s with
  | EmptyString => [cur]
  | String c r =>
      if Ascii.eqb c ","%char then cur :: split_comma_go "" r
      else split_comma_go (cur ++ String c "") r
  end.

Definition split_comma (s : string) : list string := split_comma_go "" s.

(** [",".join(map(str, l))] *)
Definition join_ints (l : list Z) : string :=
  String.concat "," (map (pretty : Z -> string) l).

(** [s in t] for strings *)
Fixpoint contains (sub s : string) : bool :=
  String.prefix sub s ||
  match s with
  | EmptyString => false
  | String _ r => contains sub r
  end.

Definition chars (s : string) : list json :=
  map (fun c => JStr (String c "")) (list_ascii_of_string s).

(** ** The world outside the server *)

(** A geopy [Location]. *)
Record geopy_location : Type := Location {
  loc_latitude : Q;
  loc_longitude : Q;
  loc_address : string;
  loc_raw : json
}.

(** What the rate-limited geocoder hands back: [None], one [Location]
    (with [exactly_one=True]) or a list of them. *)
Inductive geo_result : Type :=
| GeoNone
| GeoOne (l : geopy_location)
| GeoMany (ls : list geopy_location).

(** A geopy [Distance]. *)
Record distance : Type := Distance {
  kilometers : Q;
  miles : Q;
  nautical : Q
}.

(** The operations of the Amadeus SDK client the tools reach. *)
Inductive amadeus_endpoint : Type :=
| flight_offers_search
| hotels_by_city
| hotels_by_geocode
| hotel_offers
| activities
| activity (activityId : string).

(** One outbound call to a provider. [HttpGet] is [requests.get(url,
    params=..., timeout=...)]: [None] for an argument the call site does
    not pass. [SdkGet] is a [.get] of the Amadeus client with [params] as keyword
    arguments, and [Geocode] the geocoder call on [location] with
    [geocode_params] as keyword arguments. *)
Inductive call : Type :=
| HttpGet (url : string) (params : option (gmap string json)) (timeout : option Z)
| SdkGet (ep : amadeus_endpoint) (params : gmap string json)
| Geocode (query : string) (params : gmap string json).

(** Everything a tool reads from outside: environment variables, the
    clock, the providers and the library primitives on floats.
    [http_get] is [requests.get] followed by [raise_for_status()] and
    [json()]; [sdk_get] returns [response.body]. *)
Record world : Type := World {
  SERPAPI_KEY : option string;
  EXCHANGE_RATE_API_KEY : option string;
  now_isoformat : string;
  http_get : string -> option (gmap string json) -> option Z -> exn + json;
  sdk_get : amadeus_endpoint -> gmap string json -> exn + json;
  geocoder : string -> gmap string json -> exn + geo_result;
  geodesic : Q * Q -> Q * Q -> exn + distance;
  round2 : Q -> Q;
  fmul : Q -> Q -> Q;
  float_of_str : string -> option Q
}.

(** ** Computations: a log of outbound calls and an exception or a value *)

Definition M (A : Type) : Type := list call * (exn + A).

Definition ret {A} (a : A) : M A := ([], inr a).
Definition raise {A} (e : exn) : M A := ([], inl e).
Definition lift {A} (r : exn + A) : M A := ([], r).

Definition bind {A B} (m : M A) (k : A -> M B) : M B :=
  match m with
  | (t, inl e) => (t, inl e)
  | (t, inr a) => let '(t', r) := k a in ((t ++ t')%list, r)
  end.

Notation "'let*' x := m 'in' k" := (bind m (fun x => k))
  (at level 10, x name, m at level 100, k at level 200).

Definition requests_get (w : world) (url : string)
    (params : option (gmap string json)) (timeout : option Z) : M json :=
  ([HttpGet url params timeout], http_get w url params timeout).

Definition amadeus_get (w : world) (ep : amadeus_endpoint)
    (params : gmap string json) : M json :=
  ([SdkGet ep params], sdk_get w ep params).

Definition geocode (w : world) (query : string) (params : gmap string json)
  : M geo_result :=
  ([Geocode query params], geocoder w query params).

(** ** What a tool returns *)

(** The SerpAPI, geocoding, weather and finance tools return a dict; the
    Amadeus tools return the text [json.dumps] makes of one. *)
Inductive payload : Type :=
| Mapping (j : json)
| json_dumps (j : json).

Definition body (p : payload) : json :=
  match p with
  | Mapping j | json_dumps j => j
  end.

(** [Success]: the tool returned its result at the end of its normal path.
    [Failure]: it returned from a validation check, from an error check on
    the provider's answer, or from an [except] handler. *)
Inductive reply : Type :=
| Success (p : payload)
| Failure (p : payload).

Record outcome : Type := Outcome {
  trace : list call;
  answer : reply
}.

(** [try: ... except ...:] around the body of a tool *)
Definition try_except (m : M reply) (handler : exn -> reply) : outcome :=
  match m with
  | (t, inr r) => Outcome t r
  | (t, inl e) => Outcome t (handler e)
  end.

Definition error_dict (msg : string) : json := JObj [("error", JStr msg)].

(** [get_serpapi_key()] and [get_exchange_rate_api_key()]: [not api_key]
    holds for an unset and for an empty variable. *)
Definition get_serpapi_key (w : world) : M string :=
  match SERPAPI_KEY w with
  | Some k =>
      if String.eqb k "" then
        raise (ValueError "SERPAPI_KEY environment variable is required")
      else ret k
  | None => raise (ValueError "SERPAPI_KEY environment variable is required")
  end.

Definition get_exchange_rate_api_key (w : world) : M string :=
  match EXCHANGE_RATE_API_KEY w with
  | Some k =>
      if String.eqb k "" then
        raise (ValueError "EXCHANGE_RATE_API_KEY environment variable is required")
      else ret k
  | None =>
      raise (ValueError "EXCHANGE_RATE_API_KEY environment variable is required")
  end.

(** [j.get(k, default)]: only a dict has [get]. *)
Definition py_get (j : json) (k : string) (default : json) : M json :=
  match j with
  | JObj kvs =>
      ret (match assoc_get k kvs with Some v => v | None => default end)
  | _ => raise (AttributeError "object has no attribute 'get'")
  end.

(** [j[:m]]: lists and strings can be sliced. *)
Definition py_slice_to (j : json) (m : Z) : M json :=
  match j with
  | JArr xs => ret (JArr (slice_to m xs))
  | JStr s =>
      ret (JStr (string_of_list_ascii (slice_to m (list_ascii_of_string s))))
  | JObj _ => raise (TypeError "unhashable type: 'slice'")
  | _ => raise (TypeError "object is not subscriptable")
  end.

(** [params[k] = v if cond] *)
Definition set_if (cond : bool) (k : string) (v : json)
    (params : gmap string json) : gmap string json :=
  if cond then <[k := v]> params else params.

(** [result = response.body; result["provider"] = "Amadeus GDS";
    result["search_timestamp"] = datetime.now().isoformat();
    return json.dumps(result)]: item assignment with a string key needs
    a dict. *)
Definition stamp_amadeus (w : world) (result : json) : M reply :=
  match result with
  | JObj kvs =>
      ret (Success (json_dumps (JObj
        (assoc_set "search_timestamp" (JStr (now_isoformat w))
          (assoc_set "provider" (JStr "Amadeus GDS") kvs)))))
  | _ => raise (TypeError "object does not support item assignment")
  end.

(** The handlers every Amadeus tool ends with. *)
Definition amadeus_handler (e : exn) : reply :=
  match e with
  | ResponseError m => Failure (json_dumps (error_dict ("Amadeus API error: " ++ m)))
  | _ => Failure (json_dumps (error_dict ("Unexpected error: " ++ str_exn e)))
  end.

(** The same, for the two activity tools, with their [AttributeError]
    handler between the two. *)
Definition amadeus_activity_handler (e : exn) : reply :=
  match e with
  | ResponseError m => Failure (json_dumps (error_dict ("Amadeus API error: " ++ m)))
  | AttributeError m =>
      Failure (json_dumps (JObj
        [("error", JStr ("Tours and Activities API not available in current SDK version: " ++ m));
         ("note", JStr "This API might require a newer SDK version or special access")]))
  | _ => Failure (json_dumps (error_dict ("Unexpected error: " ++ str_exn e)))
  end.

(** The handlers of the SerpAPI tools; [api] is the name in the message of
    the first. *)
Definition serpapi_handler (api : string) (e : exn) : reply :=
  match e with
  | RequestException m => Failure (Mapping (error_dict (api ++ " request failed: " ++ m)))
  | ValueError m => Failure (Mapping (error_dict m))
  | _ => Failure (Mapping (error_dict ("Unexpected error: " ++ str_exn e)))
  end.

(** ** The tools *)

(** *** [search_flights_amadeus] *)
Module FlightsAmadeus.
Record args : Type := Args {
  originLocationCode : string;
  destinationLocationCode : string;
  departureDate : string;
  adults : Z;
  returnDate : option string;
  children : option Z;
  infants : option Z;
  travelClass : option string;
  includedAirlineCodes : option string;
  excludedAirlineCodes : option string;
  nonStop : option bool;
  currencyCode : option string;
  maxPrice : option Z;
  max : option Z
}.

(** The three checks before the client is touched; [Some msg] is the
    early [return json.dumps({"error": msg})]. An [int] is true when it
    is not zero. *)
Definition validate (a : args) : option string :=
  if negb (adults a =? 0) && negb ((1 <=? adults a) && (adults a <=? 9)) then
    Some "Adults must be between 1 and 9"
  else if truthy_int (children a) && truthy_int (infants a)
          && negb (adults a =? 0)
          && (adults a + default 0 (children a) >? 9) then
    Some "Total number of seated travelers (adults + children) cannot exceed 9"
  else if truthy_int (infants a) && negb (adults a =? 0)
          && (default 0 (infants a) >? adults a) then
    Some "Number of infants cannot exceed number of adults"
  else None.

Definition build_params (a : args) : gmap string json :=
  let params : gmap string json := ∅ in
  let params := <["originLocationCode" := JStr (originLocationCode a)]> params in
  let params := <["destinationLocationCode" := JStr (destinationLocationCode a)]> params in
  let params := <["departureDate" := JStr (departureDate a)]> params in
  let params := <["adults" := JInt (adults a)]> params in
  let params := set_if (truthy_str (returnDate a)) "returnDate" (opt_json JStr (returnDate a)) params in
  let params := set_if (is_not_None (children a)) "children" (opt_json JInt (children a)) params in
  let params := set_if (is_not_None (infants a)) "infants" (opt_json JInt (infants a)) params in
  let params := set_if (truthy_str (travelClass a)) "travelClass" (opt_json JStr (travelClass a)) params in
  let params := set_if (truthy_str (includedAirlineCodes a)) "includedAirlineCodes" (opt_json JStr (includedAirlineCodes a)) params in
  let params := set_if (truthy_str (excludedAirlineCodes a)) "excludedAirlineCodes" (opt_json JStr (excludedAirlineCodes a)) params in
  let params := set_if (is_not_None (nonStop a)) "nonStop" (opt_json JBool (nonStop a)) params in
  let params := set_if (truthy_str (currencyCode a)) "currencyCode" (opt_json JStr (currencyCode a)) params in
  let params := set_if (is_not_None (maxPrice a)) "maxPrice" (opt_json JInt (maxPrice a)) params in
  let params := set_if (is_not_None (max a)) "max" (opt_json JInt (max a)) params in
  params.
End FlightsAmadeus.

Definition search_flights_amadeus (w : world) (a : FlightsAmadeus.args) : outcome :=
  match FlightsAmadeus.validate a with
  | Some msg => Outcome [] (Failure (json_dumps (error_dict msg)))
  | None =>
      let params := FlightsAmadeus.build_params a in
      try_except
        (let* result := amadeus_get w flight_offers_search params in
         stamp_amadeus w result)
        amadeus_handler
  end.

(** *** [search_hotels_amadeus_by_city] and [search_hotels_amadeus_geocode] *)
Module HotelFilters.
(** The optional arguments the two hotel listing tools share. *)
Record args : Type := Args {
  radius : option Z;
  radiusUnit : option string;
  chainCodes : option string;
  amenities : option string;
  ratings : option string;
  hotelSource : option string
}.

Definition add (a : args) (params : gmap string json) : gmap string json :=
  let params := set_if (is_not_None (radius a)) "radius" (opt_json JInt (radius a)) params in
  let params := set_if (truthy_str (radiusUnit a)) "radiusUnit" (opt_json JStr (radiusUnit a)) params in
  let params := set_if (truthy_str (chainCodes a)) "chainCodes" (opt_json JStr (chainCodes a)) params in
  let params := set_if (truthy_str (amenities a)) "amenities" (opt_json JStr (amenities a)) params in
  let params := set_if (truthy_str (ratings a)) "ratings" (opt_json JStr (ratings a)) params in
  let params := set_if (truthy_str (hotelSource a)) "hotelSource" (opt_json JStr (hotelSource a)) params in
  params.
End HotelFilters.

Module HotelsByCity.
Record args : Type := Args {
  cityCode : string;
  filters : HotelFilters.args
}.

Definition build_params (a : args) : gmap string json :=
  HotelFilters.add (filters a) {["cityCode" := JStr (cityCode a)]}.
End HotelsByCity.

Definition search_hotels_amadeus_by_city (w : world) (a : HotelsByCity.args) : outcome :=
  let params := HotelsByCity.build_params a in
  try_except
    (let* result := amadeus_get w hotels_by_city params in
     stamp_amadeus w result)
    amadeus_handler.

Module HotelsGeocode.
Record args : Type := Args {
  latitude : Q;
  longitude : Q;
  filters : HotelFilters.args
}.

Definition build_params (a : args) : gmap string json :=
  HotelFilters.add (filters a)
    (<["longitude" := JFloat (longitude a)]> {["latitude" := JFloat (latitude a)]}).
End HotelsGeocode.

Definition search_hotels_amadeus_geocode (w : world) (a : HotelsGeocode.args) : outcome :=
  let params := HotelsGeocode.build_params a in
  try_except
    (let* result := amadeus_get w hotels_by_geocode params in
     stamp_amadeus w result)
    amadeus_handler.

(** *** [search_hotel_offers_amadeus] *)
Module HotelOffers.
Record args : Type := Args {
  cityCode : option string;
  hotelIds : option string;
  checkInDate : option string;
  checkOutDate : option string;
  adults : Z;
  roomQuantity : option Z;
  priceRange : option string;
  currency : option string;
  paymentPolicy : option string;
  boardType : option string;
  includeClosed : option bool;
  bestRateOnly : option bool;
  view : option string;
  sort : option string;
  lang : option string
}.

Definition validate (a : args) : option string :=
  if negb (truthy_str (cityCode a)) && negb (truthy_str (hotelIds a)) then
    Some "Either cityCode or hotelIds must be provided"
  else None.

Definition build_params (a : args) : gmap string json :=
  let params : gmap string json := {["adults" := JInt (adults a)]} in
  let params := set_if (truthy_str (cityCode a)) "cityCode" (opt_json JStr (cityCode a)) params in
  let params := set_if (truthy_str (hotelIds a)) "hotelIds" (opt_json JStr (hotelIds a)) params in
  let params := set_if (truthy_str (checkInDate a)) "checkInDate" (opt_json JStr (checkInDate a)) params in
  let params := set_if (truthy_str (checkOutDate a)) "checkOutDate" (opt_json JStr (checkOutDate a)) params in
  let params := set_if (is_not_None (roomQuantity a)) "roomQuantity" (opt_json JInt (roomQuantity a)) params in
  let params := set_if (truthy_str (priceRange a)) "priceRange" (opt_json JStr (priceRange a)) params in
  let params := set_if (truthy_str (currency a)) "currency" (opt_json JStr (currency a)) params in
  let params := set_if (truthy_str (paymentPolicy a)) "paymentPolicy" (opt_json JStr (paymentPolicy a)) params in
  let params := set_if (truthy_str (boardType a)) "boardType" (opt_json JStr (boardType a)) params in
  let params := set_if (is_not_None (includeClosed a)) "includeClosed" (opt_json JBool (includeClosed a)) params in
  let params := set_if (is_not_None (bestRateOnly a)) "bestRateOnly" (opt_json JBool (bestRateOnly a)) params in
  let params := set_if (truthy_str (view a)) "view" (opt_json JStr (view a)) params in
  let params := set_if (truthy_str (sort a)) "sort" (opt_json JStr (sort a)) params in
  let params := set_if (truthy_str (lang a)) "lang" (opt_json JStr (lang a)) params in
  params.
End HotelOffers.

Definition search_hotel_offers_amadeus (w : world) (a : HotelOffers.args) : outcome :=
  match HotelOffers.validate a with
  | Some msg => Outcome [] (Failure (json_dumps (error_dict msg)))
  | None =>
      let params := HotelOffers.build_params a in
      try_except
        (let* result := amadeus_get w hotel_offers params in
         stamp_amadeus w result)
        amadeus_handler
  end.

(** *** [search_activities_amadeus] and [get_activity_details_amadeus] *)
Module Activities.
Record args : Type := Args {
  latitude : Q;
  longitude : Q;
  radius : option Z;
  radiusUnit : string
}.

(** ["radius": radius or 1] *)
Definition build_params (a : args) : gmap string json :=
  let params : gmap string json := ∅ in
  let params := <["latitude" := JFloat (latitude a)]> params in
  let params := <["longitude" := JFloat (longitude a)]> params in
  let params := <["radius" := py_or (opt_json JInt (radius a)) (JInt 1)]> params in
  let params := <["radiusUnit" := JStr (radiusUnit a)]> params in
  params.
End Activities.

Definition search_activities_amadeus (w : world) (a : Activities.args) : outcome :=
  let params := Activities.build_params a in
  try_except
    (let* result := amadeus_get w activities params in
     stamp_amadeus w result)
    amadeus_activity_handler.

Definition get_activity_details_amadeus (w : world) (activityId : string) : outcome :=
  try_except
    (let* result := amadeus_get w (activity activityId) ∅ in
     stamp_amadeus w result)
    amadeus_activity_handler.

(** *** [search_flights_serpapi] *)
Module FlightsSerpapi.
Record args : Type := Args {
  departure_id : string;
  arrival_id : string;
  outbound_date : string;
  return_date : option string;
  trip_type : Z;
  adults : Z;
  children : Z;
  infants_in_seat : Z;
  infants_on_lap : Z;
  travel_class : Z;
  currency : string;
  country : string;
  language : string;
  max_results : Z
}.

Definition build_params (api_key : string) (a : args) : gmap string json :=
  let params : gmap string json := ∅ in
  let params := <["engine" := JStr "google_flights"]> params in
  let params := <["departure_id" := JStr (departure_id a)]> params in
  let params := <["arrival_id" := JStr (arrival_id a)]> params in
  let params := <["outbound_date" := JStr (outbound_date a)]> params in
  let params := <["type" := JInt (trip_type a)]> params in
  let params := <["adults" := JInt (adults a)]> params in
  let params := <["children" := JInt (children a)]> params in
  let params := <["infants_in_seat" := JInt (infants_in_seat a)]> params in
  let params := <["infants_on_lap" := JInt (infants_on_lap a)]> params in
  let params := <["travel_class" := JInt (travel_class a)]> params in
  let params := <["currency" := JStr (currency a)]> params in
  let params := <["hl" := JStr (language a)]> params in
  let params := <["gl" := JStr (country a)]> params in
  let params := <["api_key" := JStr api_key]> params in
  let params := set_if (truthy_str (return_date a) && (trip_type a =? 1))
                  "return_date" (opt_json JStr (return_date a)) params in
  params.

(** ["Round trip" if trip_type == 1 else "One way" if trip_type == 2
    else "Multi-city"] *)
Definition trip_type_label (t : Z) : string :=
  if t =? 1 then "Round trip" else if t =? 2 then "One way" else "Multi-city".

Definition travel_class_table : list string :=
  ["Economy"; "Premium economy"; "Business"; "First"].

(** [[...][travel_class - 1]] *)
Definition travel_class_label (c : Z) : exn + string :=
  py_index travel_class_table (c - 1).

Definition normalize (w : world) (a : args) (flight_data : json) : M reply :=
  let* tc := lift (travel_class_label (travel_class a)) in
  let search_metadata := JObj
    [("departure", JStr (departure_id a));
     ("arrival", JStr (arrival_id a));
     ("outbound_date", JStr (outbound_date a));
     ("return_date", opt_json JStr (return_date a));
     ("trip_type", JStr (trip_type_label (trip_type a)));
     ("passengers", JObj
        [("adults", JInt (adults a));
         ("children", JInt (children a));
         ("infants_in_seat", JInt (infants_in_seat a));
         ("infants_on_lap", JInt (infants_on_lap a))]);
     ("travel_class", JStr tc);
     ("currency", JStr (currency a));
     ("search_timestamp", JStr (now_isoformat w))] in
  let* best0 := py_get flight_data "best_flights" (JArr []) in
  let* best := py_slice_to best0 (max_results a) in
  let* other0 := py_get flight_data "other_flights" (JArr []) in
  let* other := py_slice_to other0 (max_results a) in
  let* insights := py_get flight_data "price_insights" (JObj []) in
  let* airports := py_get flight_data "airports" (JArr []) in
  ret (Success (Mapping (JObj
    [("provider", JStr "Google Flights (SerpAPI)");
     ("search_metadata", search_metadata);
     ("best_flights", best);
     ("other_flights", other);
     ("price_insights", insights);
     ("airports", airports)]))).
End FlightsSerpapi.

Definition search_flights_serpapi (w : world) (a : FlightsSerpapi.args) : outcome :=
  try_except
    (let* api_key := get_serpapi_key w in
     let params := FlightsSerpapi.build_params api_key a in
     let* flight_data := requests_get w "https://serpapi.com/search" (Some params) None in
     FlightsSerpapi.normalize w a flight_data)
    (serpapi_handler "Google Flights API").

(** *** [search_hotels_serpapi] *)
Module HotelsSerpapi.
Record args : Type := Args {
  location : string;
  check_in_date : string;
  check_out_date : string;
  adults : Z;
  children : Z;
  children_ages : option (list Z);
  currency : string;
  country : string;
  language : string;
  sort_by : option Z;
  hotel_class : option (list Z);
  amenities : option (list Z);
  property_types : option (list Z);
  brands : option (list Z);
  free_cancellation : bool;
  special_offers : bool;
  vacation_rentals : bool;
  bedrooms : option Z;
  max_results : Z
}.

Definition joined (o : option (list Z)) : json := JStr (join_ints (default [] o)).

Definition build_params (api_key : string) (a : args) : gmap string json :=
  let params : gmap string json := ∅ in
  let params := <["engine" := JStr "google_hotels"]> params in
  let params := <["q" := JStr (location a)]> params in
  let params := <["check_in_date" := JStr (check_in_date a)]> params in
  let params := <["check_out_date" := JStr (check_out_date a)]> params in
  let params := <["adults" := JInt (adults a)]> params in
  let params := <["children" := JInt (children a)]> params in
  let params := <["currency" := JStr (currency a)]> params in
  let params := <["gl" := JStr (country a)]> params in
  let params := <["hl" := JStr (language a)]> params in
  let params := <["api_key" := JStr api_key]> params in
  let params := set_if (truthy_list (children_ages a)) "children_ages" (joined (children_ages a)) params in
  let params := set_if (truthy_int (sort_by a)) "sort_by" (opt_json JInt (sort_by a)) params in
  let params := set_if (truthy_list (hotel_class a)) "hotel_class" (joined (hotel_class a)) params in
  let params := set_if (truthy_list (amenities a)) "amenities" (joined (amenities a)) params in
  let params := set_if (truthy_list (property_types a)) "property_types" (joined (property_types a)) params in
  let params := set_if (truthy_list (brands a)) "brands" (joined (brands a)) params in
  let params := set_if (free_cancellation a) "free_cancellation" (JStr "true") params in
  let params := set_if (special_offers a) "special_offers" (JStr "true") params in
  let params := set_if (vacation_rentals a) "vacation_rentals" (JStr "true") params in
  let params := set_if (truthy_int (bedrooms a)) "bedrooms" (opt_json JInt (bedrooms a)) params in
  params.

Definition normalize (w : world) (a : args) (hotel_data : json) : M reply :=
  let search_metadata := JObj
    [("location", JStr (location a));
     ("check_in_date", JStr (check_in_date a));
     ("check_out_date", JStr (check_out_date a));
     ("guests", JObj
        [("adults", JInt (adults a));
         ("children", JInt (children a));
         ("children_ages",
          JArr (map JInt (if truthy_list (children_ages a)
                          then default [] (children_ages a) else [])))]);
     ("currency", JStr (currency a));
     ("search_timestamp", JStr (now_isoformat w))] in
  let* props0 := py_get hotel_data "properties" (JArr []) in
  let* props := py_slice_to props0 (max_results a) in
  let* filters := py_get hotel_data "filters" (JObj []) in
  let* search_parameters := py_get hotel_data "search_parameters" (JObj []) in
  let* location_info := py_get hotel_data "place_results" (JObj []) in
  ret (Success (Mapping (JObj
    [("provider", JStr "Google Hotels (SerpAPI)");
     ("search_metadata", search_metadata);
     ("properties", props);
     ("filters", filters);
     ("search_parameters", search_parameters);
     ("location_info", location_info)]))).
End HotelsSerpapi.

Definition search_hotels_serpapi (w : world) (a : HotelsSerpapi.args) : outcome :=
  try_except
    (let* api_key := get_serpapi_key w in
     let params := HotelsSerpapi.build_params api_key a in
     let* hotel_data := requests_get w "https://serpapi.com/search" (Some params) None in
     HotelsSerpapi.normalize w a hotel_data)
    (serpapi_handler "Google Hotels API").

(** *** [search_events_serpapi] *)
Module EventsSerpapi.
Record args : Type := Args {
  query : string;
  location : option string;
  date_filter : option string;
  event_type : option string;
  language : string;
  country : string;
  max_results : Z
}.

Definition search_query (a : args) : string :=
  if truthy_str (location a) then query a ++ " in " ++ default "" (location a)
  else query a.

Definition build_params (api_key : string) (a : args) : gmap string json :=
  let params : gmap string json := ∅ in
  let params := <["engine" := JStr "google_events"]> params in
  let params := <["q" := JStr (search_query a)]> params in
  let params := <["hl" := JStr (language a)]> params in
  let params := <["gl" := JStr (country a)]> params in
  let params := <["api_key" := JStr api_key]> params in
  let params := set_if (truthy_str (date_filter a)) "htichips"
                  (JStr ("date:" ++ default "" (date_filter a))) params in
  let params := set_if (truthy_str (event_type a)) "htichips"
                  (JStr ("event_type:" ++ default "" (event_type a))) params in
  params.

Definition normalize (w : world) (a : args) (event_data : json) : M reply :=
  let search_metadata := JObj
    [("query", JStr (query a));
     ("location", opt_json JStr (location a));
     ("date_filter", opt_json JStr (date_filter a));
     ("event_type", opt_json JStr (event_type a));
     ("language", JStr (language a));
     ("country", JStr (country a));
     ("search_timestamp", JStr (now_isoformat w))] in
  let* events0 := py_get event_data "events_results" (JArr []) in
  let* events := py_slice_to events0 (max_results a) in
  let* search_parameters := py_get event_data "search_parameters" (JObj []) in
  ret (Success (Mapping (JObj
    [("provider", JStr "Google Events (SerpAPI)");
     ("search_metadata", search_metadata);
     ("events", events);
     ("search_parameters", search_parameters)]))).
End EventsSerpapi.

Definition search_events_serpapi (w : world) (a : EventsSerpapi.args) : outcome :=
  try_except
    (let* api_key := get_serpapi_key w in
     let params := EventsSerpapi.build_params api_key a in
     let* event_data := requests_get w "https://serpapi.com/search" (Some params) None in
     EventsSerpapi.normalize w a event_data)
    (serpapi_handler "Google Events API").

(** *** [lookup_stock] *)
Module Stock.
Record args : Type := Args {
  symbol : string;
  exchange : option string;
  window : option string;
  language : string
}.

Definition query (a : args) : string :=
  if truthy_str (exchange a)
  then upper (symbol a) ++ ":" ++ upper (default "" (exchange a))
  else upper (symbol a).

Definition build_params (api_key : string) (a : args) : gmap string json :=
  let params : gmap string json := ∅ in
  let params := <["engine" := JStr "google_finance"]> params in
  let params := <["q" := JStr (query a)]> params in
  let params := <["hl" := JStr (language a)]> params in
  let params := <["api_key" := JStr api_key]> params in
  let params := set_if (truthy_str (window a)) "window" (opt_json JStr (window a)) params in
  params.

Definition normalize (w : world) (a : args) (finance_data : json) : M reply :=
  let search_metadata := JObj
    [("symbol", JStr (upper (symbol a)));
     ("exchange", opt_json JStr (exchange a));
     ("window", opt_json JStr (window a));
     ("language", JStr (language a));
     ("search_timestamp", JStr (now_isoformat w))] in
  let* stock_info := py_get finance_data "summary" (JObj []) in
  let* price_movement := py_get finance_data "price_movement" (JObj []) in
  let* historical_data := py_get finance_data "historical_data" (JArr []) in
  let* news := py_get finance_data "news" (JArr []) in
  ret (Success (Mapping (JObj
    [("search_metadata", search_metadata);
     ("stock_info", stock_info);
     ("price_movement", price_movement);
     ("historical_data", historical_data);
     ("news", news)]))).
End Stock.

Definition lookup_stock (w : world) (a : Stock.args) : outcome :=
  try_except
    (let* api_key := get_serpapi_key w in
     let params := Stock.build_params api_key a in
     let* finance_data := requests_get w "https://serpapi.com/search" (Some params) None in
     Stock.normalize w a finance_data)
    (serpapi_handler "API").

(** *** [geocode_location] *)
Module GeocodeLocation.
Record args : Type := Args {
  location : string;
  exactly_one : bool;
  timeout : Z;
  language : string;
  addressdetails : bool;
  country_codes : option string
}.

Definition build_params (a : args) : gmap string json :=
  let geocode_params : gmap string json := ∅ in
  let geocode_params := <["exactly_one" := JBool (exactly_one a)]> geocode_params in
  let geocode_params := <["timeout" := JInt (timeout a)]> geocode_params in
  let geocode_params := <["language" := JStr (language a)]> geocode_params in
  let geocode_params := <["addressdetails" := JBool (addressdetails a)]> geocode_params in
  let geocode_params :=
    set_if (truthy_str (country_codes a)) "country_codes"
      (JArr (map JStr (split_comma (default "" (country_codes a))))) geocode_params in
  geocode_params.

Definition coordinates (l : geopy_location) : json :=
  JObj [("latitude", JFloat (loc_latitude l)); ("longitude", JFloat (loc_longitude l))].

Definition not_found (a : args) : reply :=
  Failure (Mapping (JObj
    [("error", JStr ("Location '" ++ location a ++ "' not found"));
     ("suggestions", JStr "Try using a more specific address or well-known landmark name")])).

(** The two shapes of the result. With [exactly_one] the code reads the
    attributes of one [Location]; a list has none. Without it the code
    iterates: iterating a single [Location] yields its address, a string,
    which has no [latitude]. *)
Definition normalize (w : world) (a : args) (result : geo_result) : M reply :=
  match result with
  | GeoNone | GeoMany [] => ret (not_found a)
  | GeoOne l =>
      if exactly_one a then
        ret (Success (Mapping (JObj
          [("location", JStr (location a));
           ("coordinates", coordinates l);
           ("address", JStr (loc_address l));
           ("raw_data", loc_raw l);
           ("search_timestamp", JStr (now_isoformat w))])))
      else raise (AttributeError "'str' object has no attribute 'latitude'")
  | GeoMany ls =>
      if exactly_one a then
        raise (AttributeError "'list' object has no attribute 'latitude'")
      else
        ret (Success (Mapping (JObj
          [("location", JStr (location a));
           ("multiple_results",
            JArr (map (fun r => JObj
              [("coordinates", coordinates r);
               ("address", JStr (loc_address r));
               ("raw_data", loc_raw r)]) ls));
           ("search_timestamp", JStr (now_isoformat w))])))
  end.

Definition handler (e : exn) : reply :=
  match e with
  | GeocoderTimedOut m | GeocoderUnavailable m =>
      Failure (Mapping (error_dict ("Geocoding service error: " ++ m)))
  | _ => Failure (Mapping (error_dict ("Unexpected error: " ++ str_exn e)))
  end.
End GeocodeLocation.

Definition geocode_location (w : world) (a : GeocodeLocation.args) : outcome :=
  try_except
    (let geocode_params := GeocodeLocation.build_params a in
     let* result := geocode w (GeocodeLocation.location a) geocode_params in
     GeocodeLocation.normalize w a result)
    GeocodeLocation.handler.

(** *** [calculate_distance] *)
Module CalculateDistance.
Record args : Type := Args {
  lat1 : Q;
  lon1 : Q;
  lat2 : Q;
  lon2 : Q;
  unit : string
}.

(** The branch on [unit.lower()]; everything else is kilometers. *)
Definition distance_value (d : distance) (unit : string) : Q :=
  if String.eqb (lower unit) "miles" then miles d
  else if String.eqb (lower unit) "nm" then nautical d
  else kilometers d.

(** The same request with another unit. *)
Definition with_unit (u : string) (a : args) : args :=
  {| lat1 := lat1 a; lon1 := lon1 a; lat2 := lat2 a; lon2 := lon2 a; unit := u |}.

Definition normalize (w : world) (a : args) (d : distance) : json :=
  JObj
    [("point1", JObj [("latitude", JFloat (lat1 a)); ("longitude", JFloat (lon1 a))]);
     ("point2", JObj [("latitude", JFloat (lat2 a)); ("longitude", JFloat (lon2 a))]);
     ("distance", JObj
        [("value", JFloat (round2 w (distance_value d (unit a))));
         ("unit", JStr (lower (unit a)))]);
     ("all_units", JObj
        [("kilometers", JFloat (round2 w (kilometers d)));
         ("miles", JFloat (round2 w (miles d)));
         ("nautical_miles", JFloat (round2 w (nautical d)))]);
     ("calculation_timestamp", JStr (now_isoformat w))].
End CalculateDistance.

Definition calculate_distance (w : world) (a : CalculateDistance.args) : outcome :=
  let point1 := (CalculateDistance.lat1 a, CalculateDistance.lon1 a) in
  let point2 := (CalculateDistance.lat2 a, CalculateDistance.lon2 a) in
  try_except
    (let* d := lift (geodesic w point1 point2) in
     ret (Success (Mapping (CalculateDistance.normalize w a d))))
    (fun e => Failure (Mapping (error_dict ("Distance calculation error: " ++ str_exn e)))).

(** *** [get_current_conditions] and [get_weather_forecast] *)
Definition OPEN_METEO_BASE_URL : string := "https://api.open-meteo.com/v1/forecast".

Definition weather_handler (what : string) (e : exn) : reply :=
  match e with
  | RequestException m => Failure (Mapping (error_dict ("Weather API request failed: " ++ m)))
  | _ => Failure (Mapping (error_dict ("Error processing " ++ what ++ " data: " ++ str_exn e)))
  end.

Module CurrentConditions.
Definition build_params (latitude longitude : Q) : gmap string json :=
  let params : gmap string json := ∅ in
  let params := <["latitude" := JFloat latitude]> params in
  let params := <["longitude" := JFloat longitude]> params in
  let params := <["current_weather" := JStr "true"]> params in
  let params := <["timezone" := JStr "auto"]> params in
  params.

Definition normalize (w : world) (latitude longitude : Q) (data : json) : M reply :=
  let* cw := py_get data "current_weather" JNull in
  let* c := py_get data "current" JNull in
  let current := py_or cw c in
  if negb (truthy current) then
    ret (Failure (Mapping (error_dict "Current weather not available")))
  else
    let* time := py_get current "time" JNull in
    let* temperature := py_get current "temperature" JNull in
    let* windspeed := py_get current "windspeed" JNull in
    let* winddirection := py_get current "winddirection" JNull in
    let* is_day := py_get current "is_day" JNull in
    let* weathercode := py_get current "weathercode" JNull in
    ret (Success (Mapping (JObj
      [("coordinates", JObj [("latitude", JFloat latitude); ("longitude", JFloat longitude)]);
       ("provider", JStr "open-meteo");
       ("current_conditions", JObj
          [("timestamp", time);
           ("temperature_c", temperature);
           ("windspeed_kph", windspeed);
           ("winddirection_deg", winddirection);
           ("is_day", is_day);
           ("weathercode", weathercode)]);
       ("search_timestamp", JStr (now_isoformat w))]))).
End CurrentConditions.

Definition get_current_conditions (w : world) (latitude longitude : Q) : outcome :=
  try_except
    (let params := CurrentConditions.build_params latitude longitude in
     let* data := requests_get w OPEN_METEO_BASE_URL (Some params) (Some 10) in
     CurrentConditions.normalize w latitude longitude data)
    (weather_handler "weather").

Module WeatherForecast.
Definition hourly_fields : list string :=
  ["temperature_2m"; "relative_humidity_2m"; "apparent_temperature";
   "precipitation_probability"; "windspeed_10m"; "winddirection_10m"; "weathercode"].

Definition daily_fields : list string :=
  ["temperature_2m_max"; "temperature_2m_min"; "precipitation_sum";
   "sunrise"; "sunset"; "uv_index_max"].

Definition build_params (latitude longitude : Q) (hourly : bool) : gmap string json :=
  let params : gmap string json := ∅ in
  let params := <["latitude" := JFloat latitude]> params in
  let params := <["longitude" := JFloat longitude]> params in
  let params := <["timezone" := JStr "auto"]> params in
  if hourly then <["hourly" := JStr (String.concat "," hourly_fields)]> params
  else <["daily" := JStr (String.concat "," daily_fields)]> params.

(** [len(x)] *)
Definition py_len (j : json) : M Z :=
  match j with
  | JArr xs => ret (Z.of_nat (length xs))
  | JStr s => ret (Z.of_nat (String.length s))
  | JObj kvs => ret (Z.of_nat (length kvs))
  | _ => raise (TypeError "object has no len()")
  end.

(** [x[idx]] with an integer index *)
Definition py_item (j : json) (idx : Z) : M json :=
  match j with
  | JArr xs => lift (py_index xs idx)
  | JStr s => lift (py_index (chars s) idx)
  | JObj _ => raise (KeyError (pretty idx))
  | _ => raise (TypeError "object is not subscriptable")
  end.

(** [enumerate(x)]: the elements of a list, the characters of a string,
    the keys of a dict. *)
Definition py_iter (j : json) : M (list json) :=
  match j with
  | JArr xs => ret xs
  | JStr s => ret (chars s)
  | JObj kvs => ret (map (fun kv => JStr (fst kv)) kvs)
  | _ => raise (TypeError "object is not iterable")
  end.

(** [(d.get(k) or [None])[idx] if idx < len(d.get(k, [])) else None] *)
Definition series_at (d : json) (k : string) (idx : Z) : M json :=
  let* v := py_get d k (JArr []) in
  let* n := py_len v in
  if idx <? n then
    let* v' := py_get d k JNull in
    py_item (py_or v' (JArr [JNull])) idx
  else ret JNull.

(** The fields of one dict of the loop: [fields] pairs each output key
    with the series it reads. *)
Fixpoint period_fields (d : json) (fields : list (string * string)) (idx : Z)
  : M (list (string * json)) :=
  match fields with
  | [] => ret []
  | (out, k) :: rest =>
      let* v := series_at d k idx in
      let* vs := period_fields d rest idx in
      ret ((out, v) :: vs)
  end.

(** [for idx, t in enumerate(times): result_periods.append({...})];
    [first] is the key the time goes under. *)
Fixpoint periods (d : json) (first : string) (fields : list (string * string))
    (idx : Z) (times : list json) : M (list json) :=
  match times with
  | [] => ret []
  | t :: rest =>
      let* fs := period_fields d fields idx in
      let* ps := periods d first fields (idx + 1) rest in
      ret (JObj ((first, t) :: fs) :: ps)
  end.

Definition hourly_outputs : list (string * string) :=
  [("temperature_c", "temperature_2m");
   ("relative_humidity", "relative_humidity_2m");
   ("apparent_temperature_c", "apparent_temperature");
   ("precipitation_probability", "precipitation_probability");
   ("windspeed_10m", "windspeed_10m");
   ("winddirection_10m", "winddirection_10m");
   ("weathercode", "weathercode")].

Definition daily_outputs : list (string * string) :=
  [("temp_max_c", "temperature_2m_max");
   ("temp_min_c", "temperature_2m_min");
   ("precipitation_sum_mm", "precipitation_sum");
   ("sunrise", "sunrise");
   ("sunset", "sunset");
   ("uv_index_max", "uv_index_max")].

Definition normalize (w : world) (latitude longitude : Q) (hourly : bool)
    (data : json) : M reply :=
  let* series := py_get data (if hourly then "hourly" else "daily") (JObj []) in
  let* times0 := py_get series "time" (JArr []) in
  let* times := py_iter times0 in
  let* result_periods :=
    periods series (if hourly then "time" else "date")
      (if hourly then hourly_outputs else daily_outputs) 0 times in
  let* units := py_get data (if hourly then "hourly_units" else "daily_units") (JObj []) in
  ret (Success (Mapping (JObj
    [("coordinates", JObj [("latitude", JFloat latitude); ("longitude", JFloat longitude)]);
     ("provider", JStr "open-meteo");
     ("forecast_type", JStr (if hourly then "hourly" else "daily"));
     ("forecast_periods", JArr result_periods);
     ("forecast_metadata", JObj [("units", units)]);
     ("search_timestamp", JStr (now_isoformat w))]))).
End WeatherForecast.

Definition get_weather_forecast (w : world) (latitude longitude : Q) (hourly : bool)
  : outcome :=
  try_except
    (let params := WeatherForecast.build_params latitude longitude hourly in
     let* data := requests_get w OPEN_METEO_BASE_URL (Some params) (Some 10) in
     WeatherForecast.normalize w latitude longitude hourly data)
    (weather_handler "forecast").

(** *** [convert_currency] *)
Module ConvertCurrency.
Record args : Type := Args {
  from_currency : string;
  to_currency : string;
  amount : Q;
  language : string
}.

Definition base_url (api_key : string) (a : args) : string :=
  "https://v6.exchangerate-api.com/v6/" ++ api_key ++ "/pair/"
    ++ upper (from_currency a) ++ "/" ++ upper (to_currency a).

(** [float(x)] *)
Definition py_float (w : world) (j : json) : M Q :=
  match j with
  | JInt n => ret (inject_Z n)
  | JFloat q => ret q
  | JBool b => ret (inject_Z (if b then 1 else 0))
  | JStr s =>
      match float_of_str w s with
      | Some q => ret q
      | None => raise (ValueError ("could not convert string to float: '" ++ s ++ "'"))
      end
  | _ => raise (TypeError "float() argument must be a string or a real number")
  end.

Definition is_success (j : json) : bool :=
  match j with
  | JStr s => String.eqb s "success"
  | _ => false
  end.

Definition normalize (w : world) (a : args) (data : json) : M reply :=
  let* result := py_get data "result" JNull in
  if negb (is_success result) then
    let* error_type := py_get data "error-type" JNull in
    ret (Failure (Mapping (JObj
      [("error", py_or error_type (JStr "ExchangeRate-API error"))])))
  else
    let* rate := py_get data "conversion_rate" JNull in
    match rate with
    | JNull => ret (Failure (Mapping (error_dict "Conversion rate not available")))
    | _ =>
        let* r := py_float w rate in
        let converted_amount := round2 w (fmul w (amount a) r) in
        ret (Success (Mapping (JObj
          [("search_metadata", JObj
              [("from_currency", JStr (upper (from_currency a)));
               ("to_currency", JStr (upper (to_currency a)));
               ("amount", JFloat (amount a));
               ("search_timestamp", JStr (now_isoformat w));
               ("provider", JStr "exchangerate-api")]);
           ("exchange_rate", rate);
           ("conversion", JObj
              [("original_amount", JFloat (amount a));
               ("converted_amount", JFloat converted_amount);
               ("rate", rate)])])))
    end.
End ConvertCurrency.

Definition convert_currency (w : world) (a : ConvertCurrency.args) : outcome :=
  try_except
    (let* api_key := get_exchange_rate_api_key w in
     let* data := requests_get w (ConvertCurrency.base_url api_key a) None (Some 10) in
     ConvertCurrency.normalize w a data)
    (fun e =>
       match e with
       | RequestException m => Failure (Mapping (error_dict ("Currency API request failed: " ++ m)))
       | _ => Failure (Mapping (error_dict ("Unexpected error: " ++ str_exn e)))
       end).

(** ** The tool surface *)

(** One invocation of a tool with its arguments. *)
Inductive invocation : Type :=
| SearchFlightsSerpapi (a : FlightsSerpapi.args)
| SearchFlightsAmadeus (a : FlightsAmadeus.args)
| SearchHotelsSerpapi (a : HotelsSerpapi.args)
| SearchHotelsAmadeusByCity (a : HotelsByCity.args)
| SearchHotelsAmadeusGeocode (a : HotelsGeocode.args)
| SearchHotelOffersAmadeus (a : HotelOffers.args)
| SearchEventsSerpapi (a : EventsSerpapi.args)
| SearchActivitiesAmadeus (a : Activities.args)
| GetActivityDetailsAmadeus (activityId : string)
| GeocodeLocationTool (a : GeocodeLocation.args)
| CalculateDistanceTool (a : CalculateDistance.args)
| GetCurrentConditions (latitude longitude : Q)
| GetWeatherForecast (latitude longitude : Q) (hourly : bool)
| ConvertCurrencyTool (a : ConvertCurrency.args)
| LookupStock (a : Stock.args).

Definition invoke (w : world) (i : invocation) : outcome :=
  match i with
  | SearchFlightsSerpapi a => search_flights_serpapi w a
  | SearchFlightsAmadeus a => search_flights_amadeus w a
  | SearchHotelsSerpapi a => search_hotels_serpapi w a
  | SearchHotelsAmadeusByCity a => search_hotels_amadeus_by_city w a
  | SearchHotelsAmadeusGeocode a => search_hotels_amadeus_geocode w a
  | SearchHotelOffersAmadeus a => search_hotel_offers_amadeus w a
  | SearchEventsSerpapi a => search_events_serpapi w a
  | SearchActivitiesAmadeus a => search_activities_amadeus w a
  | GetActivityDetailsAmadeus activityId => get_activity_details_amadeus w activityId
  | GeocodeLocationTool a => geocode_location w a
  | CalculateDistanceTool a => calculate_distance w a
  | GetCurrentConditions latitude longitude => get_current_conditions w latitude longitude
  | GetWeatherForecast latitude longitude hourly => get_weather_forecast w latitude longitude hourly
  | ConvertCurrencyTool a => convert_currency w a
  | LookupStock a => lookup_stock w a
  end.

(** ** Reasoning about computations *)

(** A computation that reaches no provider. *)
Definition silent {A} (m : M A) : Prop := fst m = [].

(** Postconditions of computations: [post P m] holds when [m] raises, or
    returns a value with [P]. *)
Definition post {A} (P : A -> Prop) (m : M A) : Prop :=
  match snd m with
  | inr a => P a
  | inl _ => True
  end.

(** ** Optional arguments and the keys they write *)

Definition unset {A} (o : option A) : bool := negb (is_not_None o).

(** The parameters a call carries. *)
Definition call_params (c : call) : gmap string json :=
  match c with
  | HttpGet _ (Some params) _ => params
  | HttpGet _ None _ => ∅
  | SdkGet _ params => params
  | Geocode _ params => params
  end.

(** For each tool, the provider keys that are written from an argument
    that can be [None], each with whether the argument is [None] in this
    invocation. [htichips] of the event search is written from two
    arguments, [date_filter] and [event_type]: it counts as unset when
    both are. *)
Definition optional_keys (i : invocation) : list (string * bool) :=
  match i with
  | SearchFlightsSerpapi a => [("return_date", unset (FlightsSerpapi.return_date a))]
  | SearchFlightsAmadeus a =>
      [("returnDate", unset (FlightsAmadeus.returnDate a));
       ("children", unset (FlightsAmadeus.children a));
       ("infants", unset (FlightsAmadeus.infants a));
       ("travelClass", unset (FlightsAmadeus.travelClass a));
       ("includedAirlineCodes", unset (FlightsAmadeus.includedAirlineCodes a));
       ("excludedAirlineCodes", unset (FlightsAmadeus.excludedAirlineCodes a));
       ("nonStop", unset (FlightsAmadeus.nonStop a));
       ("currencyCode", unset (FlightsAmadeus.currencyCode a));
       ("maxPrice", unset (FlightsAmadeus.maxPrice a));
       ("max", unset (FlightsAmadeus.max a))]
  | SearchHotelsSerpapi a =>
      [("children_ages", unset (HotelsSerpapi.children_ages a));
       ("sort_by", unset (HotelsSerpapi.sort_by a));
       ("hotel_class", unset (HotelsSerpapi.hotel_class a));
       ("amenities", unset (HotelsSerpapi.amenities a));
       ("property_types", unset (HotelsSerpapi.property_types a));
       ("brands", unset (HotelsSerpapi.brands a));
       ("bedrooms", unset (HotelsSerpapi.bedrooms a))]
  | SearchHotelsAmadeusByCity {| HotelsByCity.filters := f |}
  | SearchHotelsAmadeusGeocode {| HotelsGeocode.filters := f |} =>
      [("radius", unset (HotelFilters.radius f));
       ("radiusUnit", unset (HotelFilters.radiusUnit f));
       ("chainCodes", unset (HotelFilters.chainCodes f));
       ("amenities", unset (HotelFilters.amenities f));
       ("ratings", unset (HotelFilters.ratings f));
       ("hotelSource", unset (HotelFilters.hotelSource f))]
  | SearchHotelOffersAmadeus a =>
      [("cityCode", unset (HotelOffers.cityCode a));
       ("hotelIds", unset (HotelOffers.hotelIds a));
       ("checkInDate", unset (HotelOffers.checkInDate a));
       ("checkOutDate", unset (HotelOffers.checkOutDate a));
       ("roomQuantity", unset (HotelOffers.roomQuantity a));
       ("priceRange", unset (HotelOffers.priceRange a));
       ("currency", unset (HotelOffers.currency a));
       ("paymentPolicy", unset (HotelOffers.paymentPolicy a));
       ("boardType", unset (HotelOffers.boardType a));
       ("includeClosed", unset (HotelOffers.includeClosed a));
       ("bestRateOnly", unset (HotelOffers.bestRateOnly a));
       ("view", unset (HotelOffers.view a));
       ("sort", unset (HotelOffers.sort a));
       ("lang", unset (HotelOffers.lang a))]
  | SearchEventsSerpapi a =>
      [("htichips", unset (EventsSerpapi.date_filter a)
                    && unset (EventsSerpapi.event_type a))]
  | SearchActivitiesAmadeus a => [("radius", unset (Activities.radius a))]
  | GeocodeLocationTool a => [("country_codes", unset (GeocodeLocation.country_codes a))]
  | LookupStock a => [("window", unset (Stock.window a))]
  | GetActivityDetailsAmadeus _ | CalculateDistanceTool _ | GetCurrentConditions _ _
  | GetWeatherForecast _ _ _ | ConvertCurrencyTool _ => []
  end.

(** ** The shape of what a tool returns *)

(** Where a successful result names its provider. *)
Inductive labelling : Type :=
| TopLevel (name : string)
| InMetadata (name : string)
| Unlabelled.

(** The literal each tool writes under [provider], and where. *)
Definition provider_label (i : invocation) : labelling :=
  match i with
  | SearchFlightsSerpapi _ => TopLevel "Google Flights (SerpAPI)"
  | SearchHotelsSerpapi _ => TopLevel "Google Hotels (SerpAPI)"
  | SearchEventsSerpapi _ => TopLevel "Google Events (SerpAPI)"
  | SearchFlightsAmadeus _ | SearchHotelsAmadeusByCity _
  | SearchHotelsAmadeusGeocode _ | SearchHotelOffersAmadeus _
  | SearchActivitiesAmadeus _ | GetActivityDetailsAmadeus _ => TopLevel "Amadeus GDS"
  | GetCurrentConditions _ _ | GetWeatherForecast _ _ _ => TopLevel "open-meteo"
  | ConvertCurrencyTool _ => InMetadata "exchangerate-api"
  | LookupStock _ | GeocodeLocationTool _ | CalculateDistanceTool _ => Unlabelled
  end.

(** The result carries the time of the call: at the top level, inside
    [search_metadata], or as [calculation_timestamp]. *)
Definition timestamped (w : world) (j : json) : Prop :=
  field "search_timestamp" j = Some (JStr (now_isoformat w))
  \/ (exists m, field "search_metadata" j = Some m
        /\ field "search_timestamp" m = Some (JStr (now_isoformat w)))
  \/ field "calculation_timestamp" j = Some (JStr (now_isoformat w)).

(** The envelope as the specification words it: a success names its
    provider at the top level and is timestamped; a failure has the key
    [error] alone, or [error] and [note]. *)
Definition unified_envelope (w : world) (r : reply) : Prop :=
  match r with
  | Success p =>
      (exists s, field "provider" (body p) = Some (JStr s))
      /\ timestamped w (body p)
  | Failure p =>
      keys (body p) = ["error"] \/ keys (body p) = ["error"; "note"]
  end.

Definition labelled (l : labelling) (j : json) : Prop :=
  match l with
  | TopLevel name => field "provider" j = Some (JStr name)
  | InMetadata name =>
      field "provider" j = None
      /\ exists m, field "search_metadata" j = Some m
           /\ field "provider" m = Some (JStr name)
  | Unlabelled => field "provider" j = None
  end.

Definition is_activity_tool (i : invocation) : Prop :=
  match i with
  | SearchActivitiesAmadeus _ | GetActivityDetailsAmadeus _ => True
  | _ => False
  end.

Definition is_geocode_tool (i : invocation) : Prop :=
  match i with
  | GeocodeLocationTool _ => True
  | _ => False
  end.

(** The envelope as the tools build it. *)
Definition envelope (w : world) (i : invocation) (r : reply) : Prop :=
  match r with
  | Success p => labelled (provider_label i) (body p) /\ timestamped w (body p)
  | Failure p =>
      keys (body p) = ["error"]
      \/ (keys (body p) = ["error"; "note"] /\ is_activity_tool i)
      \/ (keys (body p) = ["error"; "suggestions"] /\ is_geocode_tool i)
  end.

(** ** The result lists a tool truncates *)

(** The result lists a tool cuts to the caller's maximum: the key in the
    result, the key in the provider's answer, and the maximum. *)
Definition result_collections (i : invocation) : list (string * string * Z) :=
  match i with
  | SearchFlightsSerpapi a =>
      [("best_flights", "best_flights", FlightsSerpapi.max_results a);
       ("other_flights", "other_flights", FlightsSerpapi.max_results a)]
  | SearchHotelsSerpapi a => [("properties", "properties", HotelsSerpapi.max_results a)]
  | SearchEventsSerpapi a => [("events", "events_results", EventsSerpapi.max_results a)]
  | _ => []
  end.

(** What the provider answered to an HTTP or SDK call, when it did. *)
Definition provider_answer (w : world) (c : call) : option json :=
  match c with
  | HttpGet url params timeout =>
      match http_get w url params timeout with
      | inr d => Some d
      | inl _ => None
      end
  | SdkGet ep params =>
      match sdk_get w ep params with
      | inr d => Some d
      | inl _ => None
      end
  | Geocode _ _ => None
  end.

(** ** A world and arguments to run the tools on *)

Definition sample_payload : json :=
  JObj [("best_flights", JArr [JStr "AF225"; JStr "AI143"; JStr "LH761"]);
        ("other_flights", JArr [JStr "EK511"; JStr "QR579"]);
        ("price_insights", JObj [("lowest_price", JInt 512)]);
        ("properties", JArr [JStr "Hotel du Nord"; JStr "Le Meurice"]);
        ("events_results", JArr [JStr "Jazz a la Villette"])].

Definition sample_world : world :=
  {| SERPAPI_KEY := Some "serp-key";
     EXCHANGE_RATE_API_KEY := Some "rate-key";
     now_isoformat := "2025-06-15T10:00:00";
     http_get := fun _ _ _ => inr sample_payload;
     sdk_get := fun _ _ => inr (JObj [("data", JArr [])]);
     geocoder := fun _ _ => inr GeoNone;
     geodesic := fun _ _ => inr (Distance 100 62 54);
     round2 := fun q => q;
     fmul := Qmult;
     float_of_str := fun _ => None |}.

Definition sample_flights_amadeus : FlightsAmadeus.args :=
  {| FlightsAmadeus.originLocationCode := "SYD";
     FlightsAmadeus.destinationLocationCode := "BKK";
     FlightsAmadeus.departureDate := "2025-07-01";
     FlightsAmadeus.adults := 10;
     FlightsAmadeus.returnDate := None;
     FlightsAmadeus.children := None;
     FlightsAmadeus.infants := None;
     FlightsAmadeus.travelClass := None;
     FlightsAmadeus.includedAirlineCodes := None;
     FlightsAmadeus.excludedAirlineCodes := None;
     FlightsAmadeus.nonStop := None;
     FlightsAmadeus.currencyCode := None;
     FlightsAmadeus.maxPrice := None;
     FlightsAmadeus.max := Some 250 |}.

Definition sample_flights_amadeus_no_adults : FlightsAmadeus.args :=
  {| FlightsAmadeus.originLocationCode := "SYD";
     FlightsAmadeus.destinationLocationCode := "BKK";
     FlightsAmadeus.departureDate := "2025-07-01";
     FlightsAmadeus.adults := 0;
     FlightsAmadeus.returnDate := None;
     FlightsAmadeus.children := Some 2;
     FlightsAmadeus.infants := Some 1;
     FlightsAmadeus.travelClass := None;
     FlightsAmadeus.includedAirlineCodes := None;
     FlightsAmadeus.excludedAirlineCodes := None;
     FlightsAmadeus.nonStop := None;
     FlightsAmadeus.currencyCode := None;
     FlightsAmadeus.maxPrice := None;
     FlightsAmadeus.max := Some 250 |}.

Definition sample_call_no_adults : call :=
  SdkGet flight_offers_search
    (FlightsAmadeus.build_params sample_flights_amadeus_no_adults).

Definition sample_hotel_offers : HotelOffers.args :=
  {| HotelOffers.cityCode := None;
     HotelOffers.hotelIds := None;
     HotelOffers.checkInDate := Some "2025-07-01";
     HotelOffers.checkOutDate := Some "2025-07-04";
     HotelOffers.adults := 1;
     HotelOffers.roomQuantity := None;
     HotelOffers.priceRange := None;
     HotelOffers.currency := None;
     HotelOffers.paymentPolicy := None;
     HotelOffers.boardType := None;
     HotelOffers.includeClosed := None;
     HotelOffers.bestRateOnly := None;
     HotelOffers.view := None;
     HotelOffers.sort := None;
     HotelOffers.lang := None |}.

Definition sample_activities : Activities.args :=
  {| Activities.latitude := 48;
     Activities.longitude := 2;
     Activities.radius := None;
     Activities.radiusUnit := "KM" |}.

Definition sample_events : EventsSerpapi.args :=
  {| EventsSerpapi.query := "concerts";
     EventsSerpapi.location := Some "Paris";
     EventsSerpapi.date_filter := Some "week";
     EventsSerpapi.event_type := Some "Virtual-Event";
     EventsSerpapi.language := "en";
     EventsSerpapi.country := "us";
     EventsSerpapi.max_results := 20 |}.

Definition sample_distance : CalculateDistance.args :=
  {| CalculateDistance.lat1 := 48;
     CalculateDistance.lon1 := 2;
     CalculateDistance.lat2 := 51;
     CalculateDistance.lon2 := 0;
     CalculateDistance.unit := "Yards" |}.

Definition sample_stock : Stock.args :=
  {| Stock.symbol := "dal";
     Stock.exchange := Some "nyse";
     Stock.window := None;
     Stock.language := "en" |}.

Definition sample_geocode : GeocodeLocation.args :=
  {| GeocodeLocation.location := "Atlantis";
     GeocodeLocation.exactly_one := true;
     GeocodeLocation.timeout := 10;
     GeocodeLocation.language := "en";
     GeocodeLocation.addressdetails := true;
     GeocodeLocation.country_codes := None |}.

Definition sample_search (trip_type max_results : Z) : FlightsSerpapi.args :=
  {| FlightsSerpapi.departure_id := "DEL";
     FlightsSerpapi.arrival_id := "CDG";
     FlightsSerpapi.outbound_date := "2025-06-15";
     FlightsSerpapi.return_date := None;
     FlightsSerpapi.trip_type := trip_type;
     FlightsSerpapi.adults := 1;
     FlightsSerpapi.children := 0;
     FlightsSerpapi.infants_in_seat := 0;
     FlightsSerpapi.infants_on_lap := 0;
     FlightsSerpapi.travel_class := 1;
     FlightsSerpapi.currency := "USD";
     FlightsSerpapi.country := "us";
     FlightsSerpapi.language := "en";
     FlightsSerpapi.max_results := max_results |}.


Definition sample_found (a : FlightsSerpapi.args) : payload :=
  match answer (search_flights_serpapi sample_world a) with
  | Success p | Failure p => p
  end.

Definition sample_request (a : FlightsSerpapi.args) : call :=
  HttpGet "https://serpapi.com/search"
    (Some (FlightsSerpapi.build_params "serp-key" a)) None.

(** ** More worlds and arguments *)

(** A world with both keys set, whose providers give the same answer to
    every call. *)
Definition world_with (http sdk : exn + json) (geo : exn + geo_result) : world :=
  {| SERPAPI_KEY := Some "serp-key";
     EXCHANGE_RATE_API_KEY := Some "rate-key";
     now_isoformat := "2025-06-15T10:00:00";
     http_get := fun _ _ _ => http;
     sdk_get := fun _ _ => sdk;
     geocoder := fun _ _ => geo;
     geodesic := fun _ _ => inr (Distance 100 62 54);
     round2 := fun q => q;
     fmul := Qmult;
     float_of_str := fun _ => None |}.

(** A world with no key in its environment. *)
Definition keyless_world : world :=
  {| SERPAPI_KEY := None;
     EXCHANGE_RATE_API_KEY := None;
     now_isoformat := "2025-06-15T10:00:00";
     http_get := fun _ _ _ => inr sample_payload;
     sdk_get := fun _ _ => inr (JObj [("data", JArr [])]);
     geocoder := fun _ _ => inr GeoNone;
     geodesic := fun _ _ => inr (Distance 100 62 54);
     round2 := fun q => q;
     fmul := Qmult;
     float_of_str := fun _ => None |}.

Definition sample_party (adults : Z) (children infants : option Z)
  : FlightsAmadeus.args :=
  {| FlightsAmadeus.originLocationCode := "SYD";
     FlightsAmadeus.destinationLocationCode := "BKK";
     FlightsAmadeus.departureDate := "2025-07-01";
     FlightsAmadeus.adults := adults;
     FlightsAmadeus.returnDate := Some "";
     FlightsAmadeus.children := children;
     FlightsAmadeus.infants := infants;
     FlightsAmadeus.travelClass := None;
     FlightsAmadeus.includedAirlineCodes := None;
     FlightsAmadeus.excludedAirlineCodes := None;
     FlightsAmadeus.nonStop := Some false;
     FlightsAmadeus.currencyCode := None;
     FlightsAmadeus.maxPrice := None;
     FlightsAmadeus.max := Some 250 |}.



Definition sample_offers_in_paris : HotelOffers.args :=
  {| HotelOffers.cityCode := Some "PAR";
     HotelOffers.hotelIds := None;
     HotelOffers.checkInDate := Some "2025-07-01";
     HotelOffers.checkOutDate := Some "2025-07-04";
     HotelOffers.adults := 1;
     HotelOffers.roomQuantity := None;
     HotelOffers.priceRange := None;
     HotelOffers.currency := None;
     HotelOffers.paymentPolicy := None;
     HotelOffers.boardType := None;
     HotelOffers.includeClosed := None;
     HotelOffers.bestRateOnly := None;
     HotelOffers.view := None;
     HotelOffers.sort := None;
     HotelOffers.lang := None |}.

Definition sample_bare_hotels : HotelsSerpapi.args :=
  {| HotelsSerpapi.location := "Bali beachfront";
     HotelsSerpapi.check_in_date := "2025-06-15";
     HotelsSerpapi.check_out_date := "2025-06-20";
     HotelsSerpapi.adults := 2;
     HotelsSerpapi.children := 0;
     HotelsSerpapi.children_ages := Some [];
     HotelsSerpapi.currency := "USD";
     HotelsSerpapi.country := "us";
     HotelsSerpapi.language := "en";
     HotelsSerpapi.sort_by := Some 0;
     HotelsSerpapi.hotel_class := None;
     HotelsSerpapi.amenities := None;
     HotelsSerpapi.property_types := None;
     HotelsSerpapi.brands := None;
     HotelsSerpapi.free_cancellation := false;
     HotelsSerpapi.special_offers := false;
     HotelsSerpapi.vacation_rentals := false;
     HotelsSerpapi.bedrooms := Some 0;
     HotelsSerpapi.max_results := 20 |}.

Definition sample_one_way : FlightsSerpapi.args :=
  {| FlightsSerpapi.departure_id := "DEL";
     FlightsSerpapi.arrival_id := "CDG";
     FlightsSerpapi.outbound_date := "2025-06-15";
     FlightsSerpapi.return_date := Some "2025-06-30";
     FlightsSerpapi.trip_type := 2;
     FlightsSerpapi.adults := 1;
     FlightsSerpapi.children := 0;
     FlightsSerpapi.infants_in_seat := 0;
     FlightsSerpapi.infants_on_lap := 0;
     FlightsSerpapi.travel_class := 3;
     FlightsSerpapi.currency := "USD";
     FlightsSerpapi.country := "us";
     FlightsSerpapi.language := "en";
     FlightsSerpapi.max_results := 10 |}.

Definition sample_one_way_found : payload :=
  match answer (search_flights_serpapi sample_world sample_one_way) with
  | Success p | Failure p => p
  end.

Definition sample_conversion : ConvertCurrency.args :=
  {| ConvertCurrency.from_currency := "usd";
     ConvertCurrency.to_currency := "eur";
     ConvertCurrency.amount := 100;
     ConvertCurrency.language := "en" |}.

Definition sample_places : list geopy_location :=
  [Location (4885 # 100) (235 # 100) "Paris, France" (JObj [("place_id", JInt 1)]);
   Location (3366 # 100) (-9555 # 100) "Paris, Texas" (JObj [("place_id", JInt 2)])].

Definition sample_geocode_many : GeocodeLocation.args :=
  {| GeocodeLocation.location := "Paris";
     GeocodeLocation.exactly_one := false;
     GeocodeLocation.timeout := 10;
     GeocodeLocation.language := "en";
     GeocodeLocation.addressdetails := true;
     GeocodeLocation.country_codes := Some "fr,us" |}.

(** The same conversion with its currency codes in upper case. *)
Definition upper_codes (a : ConvertCurrency.args) : ConvertCurrency.args :=
  {| ConvertCurrency.from_currency := upper (ConvertCurrency.from_currency a);
     ConvertCurrency.to_currency := upper (ConvertCurrency.to_currency a);
     ConvertCurrency.amount := ConvertCurrency.amount a;
     ConvertCurrency.language := ConvertCurrency.language a |}.

(** The same lookup with its symbol in upper case. *)
Definition upper_symbol (a : Stock.args) : Stock.args :=
  {| Stock.symbol := upper (Stock.symbol a);
     Stock.exchange := Stock.exchange a;
     Stock.window := Stock.window a;
     Stock.language := Stock.language a |}.

Definition sample_rate (rate : json) : json :=
  JObj [("result", JStr "success"); ("conversion_rate", rate)].

Definition sample_refusal : json :=
  JObj [("result", JStr "error"); ("error-type", JStr "unsupported-code")].

(** The figure a forecast period shows for the series [k] at position
    [n]: the [n]-th element of the provider's list, or null when the
    series is missing or shorter. *)
Definition value_at (series : list (string * json)) (k : string) (n : nat) : json :=
  match assoc_get k series with
  | Some (JArr vs) => default JNull (vs !! n)
  | _ => JNull
  end.

(** Each series a forecast reads is a list, or is missing. *)
Definition series_are_lists (series : list (string * json))
    (fields : list (string * string)) : Prop :=
  forall out k, (out, k) ∈ fields ->
    assoc_get k series = None \/ exists vs, assoc_get k series = Some (JArr vs).

(** One period per time, in order: the time under [first], then each
    output key with the figure of its series at that position. *)
Definition periods_of (series : list (string * json)) (first : string)
    (fields : list (string * string)) (times : list json) : list json :=
  imap (fun n t =>
          JObj ((first, t)
                :: map (fun f => (fst f, value_at series (snd f) n)) fields))
       times.

Definition sample_daily : list (string * json) :=
  [("time", JArr [JStr "2025-06-15"; JStr "2025-06-16"; JStr "2025-06-17"]);
   ("temperature_2m_max", JArr [JInt 24; JInt 26]);
   ("sunrise", JArr [JStr "05:47"; JStr "05:47"; JStr "05:48"])].

Definition sample_events_by_date : EventsSerpapi.args :=
  {| EventsSerpapi.query := "food festivals";
     EventsSerpapi.location := Some "Tokyo Shibuya";
     EventsSerpapi.date_filter := Some "weekend";
     EventsSerpapi.event_type := None;
     EventsSerpapi.language := "en";
     EventsSerpapi.country := "us";
     EventsSerpapi.max_results := 20 |}.

Definition sample_class (travel_class : Z) : FlightsSerpapi.args :=
  {| FlightsSerpapi.departure_id := "DEL";
     FlightsSerpapi.arrival_id := "CDG";
     FlightsSerpapi.outbound_date := "2025-06-15";
     FlightsSerpapi.return_date := None;
     FlightsSerpapi.trip_type := 2;
     FlightsSerpapi.adults := 1;
     FlightsSerpapi.children := 0;
     FlightsSerpapi.infants_in_seat := 0;
     FlightsSerpapi.infants_on_lap := 0;
     FlightsSerpapi.travel_class := travel_class;
     FlightsSerpapi.currency := "USD";
     FlightsSerpapi.country := "us";
     FlightsSerpapi.language := "en";
     FlightsSerpapi.max_results := 1 |}.

Definition sample_class_found (w : world) (travel_class : Z) : payload :=
  match answer (search_flights_serpapi w (sample_class travel_class)) with
  | Success p | Failure p => p
  end.

(** ** Validation before the provider is reached *)

(** C3. A hotel-offer lookup with neither [cityCode] nor [hotelIds] returns
    the validation error, whose message names both fields, and makes no
    outbound call. *)
Theorem hotel_offers_need_city_or_ids (w : world) (a : HotelOffers.args) :
  HotelOffers.cityCode a = None ->
  HotelOffers.hotelIds a = None ->
  let msg := "Either cityCode or hotelIds must be provided" in
  search_hotel_offers_amadeus w a
    = Outcome [] (Failure (json_dumps (error_dict msg)))
  /\ contains "cityCode" msg = true
  /\ contains "hotelIds" msg = true.
Proof.
  intros Hc Hh msg. unfold search_hotel_offers_amadeus, HotelOffers.validate.
  rewrite Hc, Hh. simpl. repeat split; reflexivity.
Qed.

Lemma hotel_offers_need_city_or_ids_witness :
  search_hotel_offers_amadeus sample_world sample_hotel_offers
    = Outcome [] (Failure (json_dumps
        (error_dict "Either cityCode or hotelIds must be provided")))
  /\ contains "cityCode" "Either cityCode or hotelIds must be provided" = true
  /\ contains "hotelIds" "Either cityCode or hotelIds must be provided" = true.
Proof.
  apply (hotel_offers_need_city_or_ids sample_world sample_hotel_offers);
    reflexivity.
Defined.

(** C4. A professional flight search whose [adults] is not zero and lies
    outside 1..9 (10, for one) returns exactly the error
    "Adults must be between 1 and 9" and makes no outbound call. *)
Theorem adults_out_of_range_rejected (w : world) (a : FlightsAmadeus.args) :
  FlightsAmadeus.adults a <> 0 ->
  (FlightsAmadeus.adults a < 1 \/ 9 < FlightsAmadeus.adults a) ->
  search_flights_amadeus w a
    = Outcome [] (Failure (json_dumps (error_dict "Adults must be between 1 and 9"))).
Proof.
  intros Hnz Hout. unfold search_flights_amadeus, FlightsAmadeus.validate.
  destruct (Z.eqb_spec (FlightsAmadeus.adults a) 0) as [|_]; [contradiction|].
  destruct (Z.leb_spec 1 (FlightsAmadeus.adults a));
    destruct (Z.leb_spec (FlightsAmadeus.adults a) 9); simpl; try reflexivity; lia.
Qed.

Lemma adults_out_of_range_rejected_witness :
  search_flights_amadeus sample_world sample_flights_amadeus
    = Outcome [] (Failure (json_dumps (error_dict "Adults must be between 1 and 9"))).
Proof.
  apply (adults_out_of_range_rejected sample_world sample_flights_amadeus);
    simpl; lia.
Defined.

(** C8. With [adults = 0] none of the three checks of the professional
    flight search fires: the request goes out, and it carries
    [adults = 0]. *)
Theorem adults_zero_is_forwarded (w : world) (a : FlightsAmadeus.args) :
  FlightsAmadeus.adults a = 0 ->
  FlightsAmadeus.validate a = None
  /\ trace (search_flights_amadeus w a)
       = [SdkGet flight_offers_search (FlightsAmadeus.build_params a)]
  /\ FlightsAmadeus.build_params a !! "adults" = Some (JInt 0).
Proof.
  intros H0.
  assert (Hv : FlightsAmadeus.validate a = None).
  { unfold FlightsAmadeus.validate. rewrite H0. simpl.
    rewrite !andb_false_r. reflexivity. }
  split; [exact Hv|]. split.
  - unfold search_flights_amadeus. rewrite Hv.
    unfold try_except, bind, amadeus_get.
    destruct (sdk_get w flight_offers_search _) as [e|r]; [reflexivity|].
    destruct r; reflexivity.
  - unfold FlightsAmadeus.build_params, set_if.
    repeat case_match; rewrite ?lookup_insert_ne by done;
      rewrite lookup_insert_eq; rewrite H0; reflexivity.
Qed.

Lemma adults_zero_is_forwarded_witness :
  FlightsAmadeus.validate sample_flights_amadeus_no_adults = None
  /\ trace (search_flights_amadeus sample_world sample_flights_amadeus_no_adults)
       = [SdkGet flight_offers_search
            (FlightsAmadeus.build_params sample_flights_amadeus_no_adults)]
  /\ FlightsAmadeus.build_params sample_flights_amadeus_no_adults !! "adults"
       = Some (JInt 0).
Proof.
  apply (adults_zero_is_forwarded sample_world sample_flights_amadeus_no_adults).
  reflexivity.
Defined.

(** ** Outbound calls of a computation *)

Lemma silent_ret {A} (a : A) : silent (ret a).
Proof. reflexivity. Qed.

Lemma silent_raise {A} (e : exn) : silent (@raise A e).
Proof. reflexivity. Qed.

Lemma silent_lift {A} (r : exn + A) : silent (lift r).
Proof. reflexivity. Qed.

Lemma silent_bind {A B} (m : M A) (k : A -> M B) :
  silent m -> (forall a, silent (k a)) -> silent (bind m k).
Proof.
  unfold silent, bind. destruct m as [t [e|a]]; simpl; intros -> Hk; [reflexivity|].
  specialize (Hk a). destruct (k a) as [t' r]. simpl in *. now subst.
Qed.

Lemma silent_py_get j k d : silent (py_get j k d).
Proof. destruct j; reflexivity. Qed.

Lemma silent_py_slice_to j m : silent (py_slice_to j m).
Proof. destruct j; reflexivity. Qed.

Lemma silent_stamp_amadeus w j : silent (stamp_amadeus w j).
Proof. destruct j; reflexivity. Qed.

Create HintDb silent.
#[local] Hint Resolve silent_ret silent_raise silent_lift silent_py_get
  silent_py_slice_to silent_stamp_amadeus : silent.

Ltac silence :=
  repeat first
    [ apply silent_bind; [|intros]
    | progress auto with silent
    | case_match ].

(** The calls of a bind whose continuation is silent are those of its
    head. *)
Lemma fst_bind_silent {A B} (m : M A) (k : A -> M B) :
  (forall a, silent (k a)) -> fst (bind m k) = fst m.
Proof.
  intros Hk. destruct m as [t [e|a]]; simpl; [reflexivity|].
  specialize (Hk a). unfold silent in Hk. destruct (k a) as [t' r].
  simpl in *. subst. apply app_nil_r.
Qed.

Lemma trace_try_except (m : M reply) (h : exn -> reply) :
  trace (try_except m h) = fst m.
Proof. destruct m as [t [e|r]]; reflexivity. Qed.

Lemma answer_try_except (m : M reply) (h : exn -> reply) :
  answer (try_except m h) = match snd m with inr r => r | inl e => h e end.
Proof. destruct m as [t [e|r]]; reflexivity. Qed.

Lemma get_serpapi_key_set (w : world) (k : string) :
  SERPAPI_KEY w = Some k -> k <> "" -> get_serpapi_key w = ret k.
Proof.
  intros Hk Hne. unfold get_serpapi_key. rewrite Hk.
  destruct (String.eqb_spec k ""); [contradiction|reflexivity].
Qed.

Lemma bind_ret {A B} (a : A) (k : A -> M B) : bind (ret a) k = k a.
Proof. unfold bind, ret. destruct (k a). reflexivity. Qed.

Lemma silent_flights_normalize w a d : silent (FlightsSerpapi.normalize w a d).
Proof. unfold FlightsSerpapi.normalize. silence. Qed.

Lemma silent_hotels_normalize w a d : silent (HotelsSerpapi.normalize w a d).
Proof. unfold HotelsSerpapi.normalize. silence. Qed.

Lemma silent_events_normalize w a d : silent (EventsSerpapi.normalize w a d).
Proof. unfold EventsSerpapi.normalize. silence. Qed.

Lemma silent_stock_normalize w a d : silent (Stock.normalize w a d).
Proof. unfold Stock.normalize. silence. Qed.

#[local] Hint Resolve silent_flights_normalize silent_hotels_normalize
  silent_events_normalize silent_stock_normalize : silent.

(** ** The filters of the event search and the unit of a distance *)

(** With the key set, the event search makes exactly one request. *)
Lemma events_trace (w : world) (a : EventsSerpapi.args) (k : string) :
  SERPAPI_KEY w = Some k -> k <> "" ->
  trace (search_events_serpapi w a)
    = [HttpGet "https://serpapi.com/search" (Some (EventsSerpapi.build_params k a)) None].
Proof.
  intros Hk Hne. unfold search_events_serpapi.
  rewrite trace_try_except, (get_serpapi_key_set w k Hk Hne), bind_ret.
  rewrite fst_bind_silent by auto with silent. reflexivity.
Qed.

(** C9. When the consumer event search gets both a date filter and an
    event type, the one request it makes carries [htichips] with the event
    type, and the date filter is not in it. *)
Theorem event_type_overwrites_date_filter
    (w : world) (a : EventsSerpapi.args) (k d e : string) :
  SERPAPI_KEY w = Some k -> k <> "" ->
  EventsSerpapi.date_filter a = Some d ->
  EventsSerpapi.event_type a = Some e -> e <> "" ->
  let params := EventsSerpapi.build_params k a in
  trace (search_events_serpapi w a)
    = [HttpGet "https://serpapi.com/search" (Some params) None]
  /\ params !! "htichips" = Some (JStr ("event_type:" ++ e))
  /\ params !! "htichips" <> Some (JStr ("date:" ++ d)).
Proof.
  intros Hk Hne Hd He Hee params.
  assert (Hp : params !! "htichips" = Some (JStr ("event_type:" ++ e))).
  { unfold params, EventsSerpapi.build_params, set_if.
    rewrite He. simpl.
    destruct (String.eqb_spec e ""); [contradiction|]. simpl.
    apply lookup_insert_eq. }
  split; [apply (events_trace w a k Hk Hne)|].
  split; [exact Hp|]. rewrite Hp. discriminate.
Qed.

Lemma event_type_overwrites_date_filter_witness :
  let params := EventsSerpapi.build_params "serp-key" sample_events in
  trace (search_events_serpapi sample_world sample_events)
    = [HttpGet "https://serpapi.com/search" (Some params) None]
  /\ params !! "htichips" = Some (JStr ("event_type:" ++ "Virtual-Event"))
  /\ params !! "htichips" <> Some (JStr ("date:" ++ "week")).
Proof.
  apply (event_type_overwrites_date_filter sample_world sample_events
           "serp-key" "week" "Virtual-Event"); (reflexivity || discriminate).
Defined.



(** ** Unset optional arguments *)

Lemma unset_None {A} (o : option A) : unset o = true -> o = None.
Proof. destruct o; [discriminate|reflexivity]. Qed.

Lemma lookup_set_if_ne (b : bool) (k k' : string) (v : json) (m : gmap string json) :
  k' <> k -> set_if b k' v m !! k = m !! k.
Proof. intros Hne. unfold set_if. destruct b; [apply lookup_insert_ne, Hne|reflexivity]. Qed.

Lemma set_if_false (k : string) (v : json) (m : gmap string json) :
  set_if false k v m = m.
Proof. reflexivity. Qed.

(** Peel the assignments of a parameter builder off a lookup, outermost
    first; guards on [None] have been rewritten to [false]. *)
Ltac peel :=
  cbn [truthy_str truthy_int truthy_list is_not_None andb];
  repeat first
    [ rewrite set_if_false
    | rewrite lookup_set_if_ne by done
    | rewrite lookup_insert_ne by done
    | rewrite lookup_singleton_ne by done
    | rewrite lookup_empty ];
  try reflexivity.

(** The calls a tool makes are at most the one call with the parameters
    its builder made. *)
Lemma amadeus_calls (w : world) ep params h (c : call) :
  c ∈ trace (try_except
               (let* result := amadeus_get w ep params in stamp_amadeus w result) h) ->
  c = SdkGet ep params.
Proof.
  rewrite trace_try_except, fst_bind_silent by auto with silent.
  simpl. intros Hc. apply list_elem_of_singleton in Hc. exact Hc.
Qed.

Lemma serpapi_calls (w : world) (build : string -> gmap string json)
    (norm : json -> M reply) h (c : call) :
  (forall d, silent (norm d)) ->
  c ∈ trace (try_except
               (let* api_key := get_serpapi_key w in
                let* data := requests_get w "https://serpapi.com/search"
                               (Some (build api_key)) None in
                norm data) h) ->
  exists k, c = HttpGet "https://serpapi.com/search" (Some (build k)) None.
Proof.
  intros Hs. rewrite trace_try_except. unfold get_serpapi_key.
  destruct (SERPAPI_KEY w) as [k|]; [|intros H; inversion H].
  destruct (String.eqb k ""); [intros H; inversion H|].
  rewrite bind_ret, fst_bind_silent by auto. simpl.
  intros Hc. apply list_elem_of_singleton in Hc. eauto.
Qed.

Lemma geocode_calls (w : world) (a : GeocodeLocation.args) (c : call) :
  c ∈ trace (geocode_location w a) ->
  c = Geocode (GeocodeLocation.location a) (GeocodeLocation.build_params a).
Proof.
  unfold geocode_location. rewrite trace_try_except, fst_bind_silent.
  - simpl. intros Hc. apply list_elem_of_singleton in Hc. exact Hc.
  - intros r. unfold GeocodeLocation.normalize. silence.
Qed.

Ltac pick_key H :=
  repeat (apply elem_of_cons in H as [H|H]);
  [ injection H as -> H; symmetry in H .. | inversion H ].

(** C1, as amended. Take any tool invocation, any call it makes, and any
    key written from an argument that is [None]. The parameters of the
    call do not contain the key, in every tool but one: the professional
    activity search sends [radius = 1] when its [radius] is [None]. *)
Theorem unset_optionals_are_omitted
    (w : world) (i : invocation) (c : call) (k : string) :
  c ∈ trace (invoke w i) ->
  (k, true) ∈ optional_keys i ->
  match i with
  | SearchActivitiesAmadeus _ => call_params c !! k = Some (JInt 1)
  | _ => call_params c !! k = None
  end.
Proof.
  intros Hc Hk. destruct i as [a|a|a|[city f]|[lat lon f]|a|a|a|id|a|a|lat lon|lat lon h|a|a];
    simpl in Hc, Hk.
  - apply (serpapi_calls w (fun key => FlightsSerpapi.build_params key a)) in Hc
      as [key ->]; [|auto with silent].
    pick_key Hk. apply unset_None in Hk. simpl.
    unfold FlightsSerpapi.build_params. rewrite Hk. peel.
  - unfold search_flights_amadeus in Hc.
    destruct (FlightsAmadeus.validate a); [inversion Hc|].
    apply amadeus_calls in Hc as ->. simpl.
    pick_key Hk; apply unset_None in Hk;
      unfold FlightsAmadeus.build_params; rewrite Hk; peel.
  - apply (serpapi_calls w (fun key => HotelsSerpapi.build_params key a)) in Hc
      as [key ->]; [|auto with silent].
    simpl. pick_key Hk; apply unset_None in Hk;
      unfold HotelsSerpapi.build_params; rewrite Hk; peel.
  - apply amadeus_calls in Hc as ->. simpl.
    pick_key Hk; apply unset_None in Hk;
      unfold HotelsByCity.build_params, HotelFilters.add; simpl; rewrite Hk; peel.
  - apply amadeus_calls in Hc as ->. simpl.
    pick_key Hk; apply unset_None in Hk;
      unfold HotelsGeocode.build_params, HotelFilters.add; simpl; rewrite Hk; peel.
  - unfold search_hotel_offers_amadeus in Hc.
    destruct (HotelOffers.validate a); [inversion Hc|].
    apply amadeus_calls in Hc as ->. simpl.
    pick_key Hk; apply unset_None in Hk;
      unfold HotelOffers.build_params; rewrite Hk; peel.
  - apply (serpapi_calls w (fun key => EventsSerpapi.build_params key a)) in Hc
      as [key ->]; [|auto with silent].
    simpl. pick_key Hk. apply andb_true_iff in Hk as [Hd He].
    apply unset_None in Hd, He.
    unfold EventsSerpapi.build_params. rewrite Hd, He. peel.
  - apply amadeus_calls in Hc as ->. simpl.
    pick_key Hk. apply unset_None in Hk.
    unfold Activities.build_params. rewrite Hk.
    rewrite lookup_insert_ne by done. rewrite lookup_insert_eq. reflexivity.
  - inversion Hk.
  - apply geocode_calls in Hc as ->. simpl.
    pick_key Hk. apply unset_None in Hk.
    unfold GeocodeLocation.build_params. rewrite Hk. peel.
  - inversion Hk.
  - inversion Hk.
  - inversion Hk.
  - inversion Hk.
  - apply (serpapi_calls w (fun key => Stock.build_params key a)) in Hc
      as [key ->]; [|auto with silent].
    simpl. pick_key Hk. apply unset_None in Hk.
    unfold Stock.build_params. rewrite Hk. peel.
Qed.

Lemma unset_optionals_are_omitted_witness :
  call_params sample_call_no_adults !! "returnDate" = None.
Proof.
  apply (unset_optionals_are_omitted sample_world
           (SearchFlightsAmadeus sample_flights_amadeus_no_adults)
           sample_call_no_adults "returnDate").
  - apply list_elem_of_here.
  - apply list_elem_of_here.
Defined.

(** C1, as stated, fails: the professional activity search with no
    [radius] sends the key [radius], with the default 1. *)
Lemma unset_radius_is_sent_as_default :
  ~ (forall (w : world) (i : invocation) (c : call) (k : string),
       c ∈ trace (invoke w i) ->
       (k, true) ∈ optional_keys i ->
       call_params c !! k = None).
Proof.
  intros H.
  specialize (H sample_world (SearchActivitiesAmadeus sample_activities)
                (SdkGet activities (Activities.build_params sample_activities))
                "radius").
  assert (Hv : call_params (SdkGet activities (Activities.build_params sample_activities))
                 !! "radius" = Some (JInt 1)) by reflexivity.
  rewrite H in Hv; [discriminate| |]; apply list_elem_of_here.
Qed.

(** ** Envelopes *)

Lemma post_ret {A} (P : A -> Prop) (a : A) : P a -> post P (ret a).
Proof. intros H. exact H. Qed.

Lemma post_raise {A} (P : A -> Prop) (e : exn) : post P (raise e).
Proof. exact I. Qed.

Lemma post_any {A} (P : A -> Prop) (m : M A) : (forall a, P a) -> post P m.
Proof. intros H. unfold post. destruct (snd m); auto. Qed.

Lemma snd_bind {A B} (m : M A) (k : A -> M B) :
  snd (bind m k) = match snd m with inl e => inl e | inr a => snd (k a) end.
Proof. destruct m as [t [e|a]]; simpl; [reflexivity|]. destruct (k a); reflexivity. Qed.

Lemma post_bind {A B} (Q : B -> Prop) (m : M A) (k : A -> M B) :
  post (fun a => post Q (k a)) m -> post Q (bind m k).
Proof. unfold post. rewrite snd_bind. destruct (snd m); auto. Qed.

Lemma post_try_except (P : reply -> Prop) (m : M reply) (h : exn -> reply) :
  post P m -> (forall e, P (h e)) -> P (answer (try_except m h)).
Proof.
  intros Hm Hh. rewrite answer_try_except. unfold post in Hm.
  destruct (snd m); auto.
Qed.

(** Walk down the binds of a computation to its last [ret]. *)
Ltac walk :=
  repeat first
    [ apply post_raise
    | apply post_bind; apply post_any; intros
    | case_match ].

Lemma assoc_get_set_eq k v kvs : assoc_get k (assoc_set k v kvs) = Some v.
Proof.
  induction kvs as [|[k' v'] rest IH]; simpl.
  - now rewrite String.eqb_refl.
  - destruct (String.eqb_spec k k') as [->|Hne]; simpl.
    + now rewrite String.eqb_refl.
    + destruct (String.eqb_spec k k'); [contradiction|exact IH].
Qed.

Lemma assoc_get_set_ne k k' v kvs :
  k <> k' -> assoc_get k (assoc_set k' v kvs) = assoc_get k kvs.
Proof.
  intros Hne. induction kvs as [|[k0 v0] rest IH]; simpl.
  - destruct (String.eqb_spec k k'); [contradiction|reflexivity].
  - destruct (String.eqb_spec k' k0) as [->|Hne0]; simpl.
    + destruct (String.eqb_spec k k0); [contradiction|reflexivity].
    + destruct (String.eqb_spec k k0); [reflexivity|exact IH].
Qed.

Lemma stamp_amadeus_envelope (w : world) (i : invocation) (result : json) :
  provider_label i = TopLevel "Amadeus GDS" ->
  post (envelope w i) (stamp_amadeus w result).
Proof.
  intros Hl. destruct result; try apply post_raise.
  apply post_ret. simpl. rewrite Hl. split.
  - simpl. rewrite assoc_get_set_ne by discriminate. apply assoc_get_set_eq.
  - left. simpl. apply assoc_get_set_eq.
Qed.

Lemma amadeus_handler_envelope (w : world) (i : invocation) (e : exn) :
  envelope w i (amadeus_handler e).
Proof. destruct e; left; reflexivity. Qed.

Lemma amadeus_activity_handler_envelope (w : world) (i : invocation) (e : exn) :
  is_activity_tool i -> envelope w i (amadeus_activity_handler e).
Proof.
  intros Hi. destruct e; try (left; reflexivity).
  right; left. split; [reflexivity|exact Hi].
Qed.

Lemma serpapi_handler_envelope (w : world) (i : invocation) api (e : exn) :
  envelope w i (serpapi_handler api e).
Proof. destruct e; left; reflexivity. Qed.

Lemma weather_handler_envelope (w : world) (i : invocation) what (e : exn) :
  envelope w i (weather_handler what e).
Proof. destruct e; left; reflexivity. Qed.

(** C2, as amended. Every invocation of every tool returns one of two
    shapes. A success is timestamped and names its provider where the
    tool puts it: at the top level for the flight, hotel, event, activity
    and weather tools, inside [search_metadata] for the currency
    conversion, nowhere for the stock lookup, the geocoding and the
    distance calculation. A failure is a mapping with [error], alone or
    followed by [note] (the activity tools) or by [suggestions] (the
    geocoding). *)
Theorem every_reply_is_an_envelope (w : world) (i : invocation) :
  envelope w i (answer (invoke w i)).
Proof.
  destruct i as [a|a|a|a|a|a|a|a|id|a|a|lat lon|lat lon h|a|a]; cbn [invoke];
    unfold search_flights_serpapi, search_hotels_serpapi, search_events_serpapi,
      lookup_stock, search_hotels_amadeus_by_city, search_hotels_amadeus_geocode,
      search_activities_amadeus, get_activity_details_amadeus, geocode_location,
      calculate_distance, get_current_conditions, get_weather_forecast,
      convert_currency.
  - apply (post_try_except (envelope w _)); [|apply serpapi_handler_envelope].
    unfold FlightsSerpapi.normalize. walk. apply post_ret.
    split; [reflexivity|]. right; left. eexists; split; reflexivity.
  - unfold search_flights_amadeus.
    destruct (FlightsAmadeus.validate a); [left; reflexivity|].
    apply (post_try_except (envelope w _)); [|apply amadeus_handler_envelope].
    walk. now apply stamp_amadeus_envelope.
  - apply (post_try_except (envelope w _)); [|apply serpapi_handler_envelope].
    unfold HotelsSerpapi.normalize. walk; apply post_ret;
      (split; [reflexivity|]; right; left; eexists; split; reflexivity).
  - apply (post_try_except (envelope w _)); [|apply amadeus_handler_envelope].
    walk. now apply stamp_amadeus_envelope.
  - apply (post_try_except (envelope w _)); [|apply amadeus_handler_envelope].
    walk. now apply stamp_amadeus_envelope.
  - unfold search_hotel_offers_amadeus.
    destruct (HotelOffers.validate a); [left; reflexivity|].
    apply (post_try_except (envelope w _)); [|apply amadeus_handler_envelope].
    walk. now apply stamp_amadeus_envelope.
  - apply (post_try_except (envelope w _)); [|apply serpapi_handler_envelope].
    unfold EventsSerpapi.normalize. walk. apply post_ret.
    split; [reflexivity|]. right; left. eexists; split; reflexivity.
  - apply (post_try_except (envelope w _)); [|intros e; apply amadeus_activity_handler_envelope; exact I].
    walk. now apply stamp_amadeus_envelope.
  - apply (post_try_except (envelope w _)); [|intros e; apply amadeus_activity_handler_envelope; exact I].
    walk. now apply stamp_amadeus_envelope.
  - apply (post_try_except (envelope w _)).
    + unfold GeocodeLocation.normalize. walk; apply post_ret;
        try (right; right; split; [reflexivity|exact I]);
        (split; [reflexivity|left; reflexivity]).
    + intros e. destruct e; left; reflexivity.
  - apply (post_try_except (envelope w _)); [|intros e; left; reflexivity].
    walk. apply post_ret. split; [reflexivity|]. right; right. reflexivity.
  - apply (post_try_except (envelope w _)); [|apply weather_handler_envelope].
    unfold CurrentConditions.normalize. walk; apply post_ret.
    + left; reflexivity.
    + split; [reflexivity|left; reflexivity].
  - apply (post_try_except (envelope w _)); [|apply weather_handler_envelope].
    unfold WeatherForecast.normalize. walk; apply post_ret;
      (split; [reflexivity|left; reflexivity]).
  - apply (post_try_except (envelope w _)); [|intros e; destruct e; left; reflexivity].
    unfold ConvertCurrency.normalize. walk; apply post_ret;
      try (left; reflexivity);
      (split; [split; [reflexivity|eexists; split; reflexivity]
              |right; left; eexists; split; reflexivity]).
  - apply (post_try_except (envelope w _)); [|apply serpapi_handler_envelope].
    unfold Stock.normalize. walk. apply post_ret.
    split; [reflexivity|]. right; left. eexists; split; reflexivity.
Qed.

(** C2, as stated, fails twice: a successful stock lookup has no
    [provider] key, and a geocoding that finds nothing returns [error]
    with [suggestions]. *)
Lemma stock_and_geocode_break_the_envelope :
  ~ unified_envelope sample_world (answer (lookup_stock sample_world sample_stock))
  /\ ~ unified_envelope sample_world
         (answer (geocode_location sample_world sample_geocode)).
Proof.
  split.
  - intros [[s Hs] _]. discriminate Hs.
  - intros [H|H]; discriminate H.
Qed.

(** ** Truncation of result lists *)

Lemma slice_to_prefix {A} (m : Z) (xs : list A) : slice_to m xs `prefix_of` xs.
Proof.
  unfold slice_to. destruct (0 <=? m); eexists; symmetry; apply take_drop.
Qed.

Lemma slice_to_length {A} (m : Z) (xs : list A) :
  0 <= m ->
  Z.of_nat (length (slice_to m xs)) = Z.min (Z.of_nat (length xs)) m.
Proof.
  intros Hm. unfold slice_to.
  destruct (Z.leb_spec 0 m); [|lia]. rewrite length_take. lia.
Qed.

Lemma slice_to_negative_length {A} (m : Z) (xs : list A) :
  m < 0 ->
  Z.of_nat (length (slice_to m xs)) = Z.max 0 (Z.of_nat (length xs) + m).
Proof.
  intros Hm. unfold slice_to.
  destruct (Z.leb_spec 0 m); [lia|]. rewrite length_take. lia.
Qed.

(** Reading a list from the provider's answer and slicing it. *)
Lemma post_get_slice {B} (Q : B -> Prop) (fd : json) (pk : string)
    (xs : list json) (d : json) (m : Z) (k : json -> M B) :
  field pk fd = Some (JArr xs) ->
  post Q (k (JArr (slice_to m xs))) ->
  post Q (let* v0 := py_get fd pk d in let* v := py_slice_to v0 m in k v).
Proof.
  intros Hf Hk. destruct fd; try discriminate Hf. simpl in Hf.
  unfold py_get. rewrite Hf, bind_ret. simpl py_slice_to. rewrite bind_ret.
  exact Hk.
Qed.

Lemma serpapi_handler_fails api e : exists q, serpapi_handler api e = Failure q.
Proof. destruct e; eexists; reflexivity. Qed.

(** A SerpAPI tool that made the call [c], got [fd] for it and succeeded
    returns what its normalizer made of [fd]. *)
Lemma serpapi_success (w : world) (build : string -> gmap string json)
    (norm : json -> M reply) (api : string) (c : call) (fd : json)
    (p : payload) (P : payload -> Prop) :
  (forall d, silent (norm d)) ->
  let o := try_except
             (let* api_key := get_serpapi_key w in
              let* data := requests_get w "https://serpapi.com/search"
                             (Some (build api_key)) None in
              norm data) (serpapi_handler api) in
  trace o = [c] ->
  provider_answer w c = Some fd ->
  answer o = Success p ->
  post (fun r => forall q, r = Success q -> P q) (norm fd) ->
  P p.
Proof.
  intros Hs o Ht Hp Ha Hn. subst o.
  rewrite trace_try_except in Ht. rewrite answer_try_except in Ha.
  unfold get_serpapi_key in Ht, Ha.
  destruct (SERPAPI_KEY w) as [k|]; [|discriminate Ht].
  destruct (String.eqb k ""); [discriminate Ht|].
  rewrite bind_ret in Ht, Ha.
  rewrite fst_bind_silent in Ht by auto. simpl in Ht.
  injection Ht as <-. simpl in Hp.
  rewrite snd_bind in Ha. simpl in Ha.
  destruct (http_get w _ _ _) as [e|d]; [discriminate Hp|].
  injection Hp as ->. unfold post in Hn.
  destruct (snd (norm fd)) as [e|r].
  - destruct (serpapi_handler_fails api e) as [q Hq]. congruence.
  - subst r. now apply Hn.
Qed.

(** C5, as amended. When a consumer search succeeds, each result list
    (best and other flights, properties, events) is the provider's list
    sliced to the caller's maximum [m]: a prefix of the provider's list,
    so in the provider's order, and of length [min n m] when [m] is not
    negative. Best and other flights are cut separately with the same
    [m]. *)
Theorem result_lists_are_truncated
    (w : world) (i : invocation) (c : call) (fd : json) (p : payload)
    (rk pk : string) (m : Z) (xs : list json) :
  trace (invoke w i) = [c] ->
  provider_answer w c = Some fd ->
  answer (invoke w i) = Success p ->
  (rk, pk, m) ∈ result_collections i ->
  field pk fd = Some (JArr xs) ->
  0 <= m ->
  exists out,
    field rk (body p) = Some (JArr out)
    /\ out = slice_to m xs
    /\ out `prefix_of` xs
    /\ Z.of_nat (length out) = Z.min (Z.of_nat (length xs)) m.
Proof.
  intros Ht Hp Ha Hk Hf Hm. exists (slice_to m xs).
  split; [|auto using slice_to_prefix, slice_to_length].
  destruct i; simpl in Hk; try (inversion Hk; fail); cbn [invoke] in Ht, Ha.
  - apply (serpapi_success w (fun key => FlightsSerpapi.build_params key a)
             (FlightsSerpapi.normalize w a) "Google Flights API" c fd p
             (fun q => field rk (body q) = Some (JArr (slice_to m xs))));
      auto with silent.
    unfold FlightsSerpapi.normalize. apply post_bind, post_any. intros tc.
    apply elem_of_cons in Hk as [Hk|Hk]; [injection Hk as -> -> ->|].
    + apply (post_get_slice _ _ _ xs); [exact Hf|].
      walk. apply post_ret. intros q [= <-]. reflexivity.
    + apply elem_of_cons in Hk as [Hk|Hk]; [injection Hk as -> -> ->|inversion Hk].
      apply post_bind, post_any. intros b0. apply post_bind, post_any. intros b.
      apply (post_get_slice _ _ _ xs); [exact Hf|].
      walk. apply post_ret. intros q [= <-]. reflexivity.
  - apply (serpapi_success w (fun key => HotelsSerpapi.build_params key a)
             (HotelsSerpapi.normalize w a) "Google Hotels API" c fd p
             (fun q => field rk (body q) = Some (JArr (slice_to m xs))));
      auto with silent.
    unfold HotelsSerpapi.normalize.
    apply elem_of_cons in Hk as [Hk|Hk]; [injection Hk as -> -> ->|inversion Hk].
    apply (post_get_slice _ _ _ xs); [exact Hf|].
    walk; apply post_ret; intros q [= <-]; reflexivity.
  - apply (serpapi_success w (fun key => EventsSerpapi.build_params key a)
             (EventsSerpapi.normalize w a) "Google Events API" c fd p
             (fun q => field rk (body q) = Some (JArr (slice_to m xs))));
      auto with silent.
    unfold EventsSerpapi.normalize.
    apply elem_of_cons in Hk as [Hk|Hk]; [injection Hk as -> -> ->|inversion Hk].
    apply (post_get_slice _ _ _ xs); [exact Hf|].
    walk. apply post_ret. intros q [= <-]. reflexivity.
Qed.

Lemma result_lists_are_truncated_witness :
  exists out,
    field "best_flights" (body (sample_found (sample_search 1 2))) = Some (JArr out)
    /\ out = slice_to 2 [JStr "AF225"; JStr "AI143"; JStr "LH761"]
    /\ out `prefix_of` [JStr "AF225"; JStr "AI143"; JStr "LH761"]
    /\ Z.of_nat (length out)
       = Z.min (Z.of_nat (length [JStr "AF225"; JStr "AI143"; JStr "LH761"])) 2.
Proof.
  apply (result_lists_are_truncated sample_world
           (SearchFlightsSerpapi (sample_search 1 2))
           (sample_request (sample_search 1 2)) sample_payload
           (sample_found (sample_search 1 2))
           "best_flights" "best_flights" 2
           [JStr "AF225"; JStr "AI143"; JStr "LH761"]).
  - reflexivity.
  - reflexivity.
  - reflexivity.
  - apply list_elem_of_here.
  - reflexivity.
  - lia.
Defined.

(** C5, as stated, fails for a negative maximum: with [max_results = -1]
    and three best flights from the provider, the result keeps two, and
    [min 3 (-1)] is not two. *)
Lemma negative_maximum_drops_from_the_end :
  ~ (forall (w : world) (i : invocation) (c : call) (fd : json) (p : payload)
       (rk pk : string) (m : Z) (xs : list json),
       trace (invoke w i) = [c] ->
       provider_answer w c = Some fd ->
       answer (invoke w i) = Success p ->
       (rk, pk, m) ∈ result_collections i ->
       field pk fd = Some (JArr xs) ->
       exists out,
         field rk (body p) = Some (JArr out)
         /\ out `prefix_of` xs
         /\ Z.of_nat (length out) = Z.min (Z.of_nat (length xs)) m).
Proof.
  intros H.
  destruct (H sample_world (SearchFlightsSerpapi (sample_search 1 (-1)))
              (sample_request (sample_search 1 (-1))) sample_payload
              (sample_found (sample_search 1 (-1)))
              "best_flights" "best_flights" (-1)
              [JStr "AF225"; JStr "AI143"; JStr "LH761"]
              eq_refl eq_refl eq_refl (list_elem_of_here _ _) eq_refl)
    as (out & Hout & _ & Hlen).
  vm_compute in Hout. injection Hout as <-. discriminate Hlen.
Qed.

(** ** Requests of the consumer searches *)

Lemma serpapi_trace (w : world) (build : string -> gmap string json)
    (norm : json -> M reply) (h : exn -> reply) (k : string) :
  (forall d, silent (norm d)) ->
  SERPAPI_KEY w = Some k -> k <> "" ->
  trace (try_except
           (let* api_key := get_serpapi_key w in
            let* data := requests_get w "https://serpapi.com/search"
                           (Some (build api_key)) None in
            norm data) h)
    = [HttpGet "https://serpapi.com/search" (Some (build k)) None].
Proof.
  intros Hs Hk Hne.
  rewrite trace_try_except, (get_serpapi_key_set w k Hk Hne), bind_ret.
  rewrite fst_bind_silent by auto. reflexivity.
Qed.

Lemma silent_current_normalize w lat lon d :
  silent (CurrentConditions.normalize w lat lon d).
Proof. unfold CurrentConditions.normalize. silence. Qed.

Lemma silent_period_fields d fields idx :
  silent (WeatherForecast.period_fields d fields idx).
Proof.
  induction fields as [|[out k] rest IH]; simpl; [apply silent_ret|].
  apply silent_bind.
  - unfold WeatherForecast.series_at, WeatherForecast.py_len,
      WeatherForecast.py_item. silence.
  - intros v. apply silent_bind; [exact IH|intros; apply silent_ret].
Qed.

Lemma silent_periods d first fields idx times :
  silent (WeatherForecast.periods d first fields idx times).
Proof.
  revert idx. induction times as [|t rest IH]; intros idx; simpl;
    [apply silent_ret|].
  apply silent_bind; [apply silent_period_fields|intros fs].
  apply silent_bind; [apply IH|intros; apply silent_ret].
Qed.

Lemma silent_forecast_normalize w lat lon hourly d :
  silent (WeatherForecast.normalize w lat lon hourly d).
Proof.
  unfold WeatherForecast.normalize, WeatherForecast.py_iter.
  repeat first
    [ apply silent_bind; [|intros]
    | apply silent_periods
    | progress auto with silent
    | case_match ].
Qed.

(** With the key set, the flight and the hotel search each make their one
    request, without a timeout. *)
Lemma serpapi_flight_and_hotel_trace (w : world) (k : string) :
  SERPAPI_KEY w = Some k -> k <> "" ->
  (forall a, trace (search_flights_serpapi w a)
     = [HttpGet "https://serpapi.com/search"
          (Some (FlightsSerpapi.build_params k a)) None])
  /\ (forall a, trace (search_hotels_serpapi w a)
        = [HttpGet "https://serpapi.com/search"
             (Some (HotelsSerpapi.build_params k a)) None]).
Proof.
  intros Hk Hne. split; intros.
  - apply (serpapi_trace w (fun key => FlightsSerpapi.build_params key a));
      auto with silent.
  - apply (serpapi_trace w (fun key => HotelsSerpapi.build_params key a));
      auto with silent.
Qed.

(** C7. With the API key set, each of the four consumer searches makes one
    request to SerpAPI and passes it no timeout, while the two weather
    tools pass [timeout=10] to theirs. *)
Theorem serpapi_requests_carry_no_timeout (w : world) (k : string) :
  SERPAPI_KEY w = Some k -> k <> "" ->
  (forall a, trace (search_flights_serpapi w a)
     = [HttpGet "https://serpapi.com/search"
          (Some (FlightsSerpapi.build_params k a)) None])
  /\ (forall a, trace (search_hotels_serpapi w a)
        = [HttpGet "https://serpapi.com/search"
             (Some (HotelsSerpapi.build_params k a)) None])
  /\ (forall a, trace (search_events_serpapi w a)
        = [HttpGet "https://serpapi.com/search"
             (Some (EventsSerpapi.build_params k a)) None])
  /\ (forall a, trace (lookup_stock w a)
        = [HttpGet "https://serpapi.com/search"
             (Some (Stock.build_params k a)) None])
  /\ (forall lat lon, trace (get_current_conditions w lat lon)
        = [HttpGet OPEN_METEO_BASE_URL
             (Some (CurrentConditions.build_params lat lon)) (Some 10)])
  /\ (forall lat lon hourly, trace (get_weather_forecast w lat lon hourly)
        = [HttpGet OPEN_METEO_BASE_URL
             (Some (WeatherForecast.build_params lat lon hourly)) (Some 10)]).
Proof.
  intros Hk Hne. repeat split; intros.
  - apply (serpapi_trace w (fun key => FlightsSerpapi.build_params key a));
      auto with silent.
  - apply (serpapi_trace w (fun key => HotelsSerpapi.build_params key a));
      auto with silent.
  - apply (events_trace w a k Hk Hne).
  - apply (serpapi_trace w (fun key => Stock.build_params key a));
      auto with silent.
  - unfold get_current_conditions. rewrite trace_try_except.
    rewrite fst_bind_silent by (intros; apply silent_current_normalize).
    reflexivity.
  - unfold get_weather_forecast. rewrite trace_try_except.
    rewrite fst_bind_silent by (intros; apply silent_forecast_normalize).
    reflexivity.
Qed.

Lemma serpapi_requests_carry_no_timeout_witness :
  trace (search_flights_serpapi sample_world (sample_search 1 10))
    = [HttpGet "https://serpapi.com/search"
         (Some (FlightsSerpapi.build_params "serp-key" (sample_search 1 10))) None].
Proof.
  apply (serpapi_requests_carry_no_timeout sample_world "serp-key");
    (reflexivity || discriminate).
Defined.




(** * Further properties of the tools *)

(** ** What a tool answers, by what its provider answered *)

Lemma serpapi_answer (w : world) (build : string -> gmap string json)
    (norm : json -> M reply) (h : exn -> reply) (k : string) :
  SERPAPI_KEY w = Some k -> k <> "" ->
  answer (try_except
            (let* api_key := get_serpapi_key w in
             let* data := requests_get w "https://serpapi.com/search"
                            (Some (build api_key)) None in
             norm data) h)
    = match http_get w "https://serpapi.com/search" (Some (build k)) None with
      | inl e => h e
      | inr d => match snd (norm d) with inr r => r | inl e => h e end
      end.
Proof.
  intros Hk Hne.
  rewrite answer_try_except, (get_serpapi_key_set w k Hk Hne), bind_ret, snd_bind.
  simpl. destruct (http_get w _ _ _); reflexivity.
Qed.

Lemma amadeus_answer (w : world) (ep : amadeus_endpoint)
    (params : gmap string json) (h : exn -> reply) :
  answer (try_except
            (let* result := amadeus_get w ep params in stamp_amadeus w result) h)
    = match sdk_get w ep params with
      | inl e => h e
      | inr d => match snd (stamp_amadeus w d) with inr r => r | inl e => h e end
      end.
Proof.
  rewrite answer_try_except, snd_bind. simpl.
  destruct (sdk_get w ep params); reflexivity.
Qed.

Lemma amadeus_trace (w : world) (ep : amadeus_endpoint)
    (params : gmap string json) (h : exn -> reply) :
  trace (try_except
           (let* result := amadeus_get w ep params in stamp_amadeus w result) h)
    = [SdkGet ep params].
Proof.
  rewrite trace_try_except, fst_bind_silent by auto with silent. reflexivity.
Qed.

(** ** The passenger checks of the professional flight search *)

Lemma validate_adults_in_range (a : FlightsAmadeus.args) :
  1 <= FlightsAmadeus.adults a <= 9 ->
  negb (FlightsAmadeus.adults a =? 0) = true
  /\ (1 <=? FlightsAmadeus.adults a) && (FlightsAmadeus.adults a <=? 9) = true.
Proof.
  intros [H1 H9]. split.
  - destruct (Z.eqb_spec (FlightsAmadeus.adults a) 0); [lia|reflexivity].
  - apply andb_true_iff. split; apply Z.leb_le; assumption.
Qed.

(** X1. A professional flight search with adults in 1..9, children and
    infants both given and not zero, and more than nine adults and
    children together is rejected with the seated-travelers error, before
    any outbound call. *)
Theorem seated_travelers_over_nine_rejected
    (w : world) (a : FlightsAmadeus.args) (c i : Z) :
  1 <= FlightsAmadeus.adults a <= 9 ->
  FlightsAmadeus.children a = Some c -> c <> 0 ->
  FlightsAmadeus.infants a = Some i -> i <> 0 ->
  9 < FlightsAmadeus.adults a + c ->
  search_flights_amadeus w a
    = Outcome [] (Failure (json_dumps (error_dict
        "Total number of seated travelers (adults + children) cannot exceed 9"))).
Proof.
  intros Ha Hc Hc0 Hi Hi0 Hsum.
  destruct (validate_adults_in_range a Ha) as [Hnz Hin].
  unfold search_flights_amadeus, FlightsAmadeus.validate.
  rewrite Hnz, Hin, Hc, Hi. simpl.
  destruct (Z.eqb_spec c 0); [contradiction|].
  destruct (Z.eqb_spec i 0); [contradiction|]. simpl.
  destruct (Z.gtb_spec (FlightsAmadeus.adults a + c) 9); [reflexivity|lia].
Qed.

Lemma seated_travelers_over_nine_rejected_witness :
  search_flights_amadeus sample_world (sample_party 5 (Some 6) (Some 1))
    = Outcome [] (Failure (json_dumps (error_dict
        "Total number of seated travelers (adults + children) cannot exceed 9"))).
Proof.
  apply (seated_travelers_over_nine_rejected sample_world
           (sample_party 5 (Some 6) (Some 1)) 6 1);
    simpl; (reflexivity || lia).
Defined.

(** X2. The seated-travelers check needs infants: with adults in 1..9 and
    infants absent or zero, any number of children passes validation, and
    the one SDK call carries the adults and the children as given. *)
Theorem seated_check_needs_infants
    (w : world) (a : FlightsAmadeus.args) (c : Z) :
  1 <= FlightsAmadeus.adults a <= 9 ->
  FlightsAmadeus.children a = Some c ->
  truthy_int (FlightsAmadeus.infants a) = false ->
  let params := FlightsAmadeus.build_params a in
  trace (search_flights_amadeus w a) = [SdkGet flight_offers_search params]
  /\ params !! "adults" = Some (JInt (FlightsAmadeus.adults a))
  /\ params !! "children" = Some (JInt c).
Proof.
  intros Ha Hc Hi params.
  destruct (validate_adults_in_range a Ha) as [Hnz Hin].
  assert (Hv : FlightsAmadeus.validate a = None).
  { unfold FlightsAmadeus.validate. rewrite Hnz, Hin, Hi. simpl.
    rewrite andb_false_r. reflexivity. }
  split; [|split].
  - unfold search_flights_amadeus. rewrite Hv. apply amadeus_trace.
  - unfold params, FlightsAmadeus.build_params. peel; apply lookup_insert_eq.
  - unfold params, FlightsAmadeus.build_params. rewrite Hc.
    peel; cbn [is_not_None opt_json]; unfold set_if; apply lookup_insert_eq.
Qed.

Lemma seated_check_needs_infants_witness :
  let params := FlightsAmadeus.build_params (sample_party 9 (Some 9) None) in
  trace (search_flights_amadeus sample_world (sample_party 9 (Some 9) None))
    = [SdkGet flight_offers_search params]
  /\ params !! "adults" = Some (JInt 9)
  /\ params !! "children" = Some (JInt 9).
Proof.
  apply (seated_check_needs_infants sample_world (sample_party 9 (Some 9) None) 9);
    simpl; (reflexivity || lia).
Defined.

(** X3. A professional flight search with adults in 1..9, at most nine
    adults and children together, and more infants than adults is
    rejected with the infants error, before any outbound call. *)
Theorem more_infants_than_adults_rejected
    (w : world) (a : FlightsAmadeus.args) (i : Z) :
  1 <= FlightsAmadeus.adults a <= 9 ->
  FlightsAmadeus.adults a + default 0 (FlightsAmadeus.children a) <= 9 ->
  FlightsAmadeus.infants a = Some i ->
  FlightsAmadeus.adults a < i ->
  search_flights_amadeus w a
    = Outcome [] (Failure (json_dumps (error_dict
        "Number of infants cannot exceed number of adults"))).
Proof.
  intros Ha Hsum Hi Hgt.
  destruct (validate_adults_in_range a Ha) as [Hnz Hin].
  unfold search_flights_amadeus, FlightsAmadeus.validate.
  rewrite Hnz, Hin, Hi. simpl.
  destruct (Z.eqb_spec i 0); [lia|]. simpl.
  destruct (Z.gtb_spec (FlightsAmadeus.adults a
                        + default 0 (FlightsAmadeus.children a)) 9); [lia|].
  rewrite andb_false_r.
  destruct (Z.gtb_spec i (FlightsAmadeus.adults a)); [reflexivity|lia].
Qed.

Lemma more_infants_than_adults_rejected_witness :
  search_flights_amadeus sample_world (sample_party 2 (Some 3) (Some 3))
    = Outcome [] (Failure (json_dumps (error_dict
        "Number of infants cannot exceed number of adults"))).
Proof.
  apply (more_infants_than_adults_rejected sample_world
           (sample_party 2 (Some 3) (Some 3)) 3);
    simpl; (reflexivity || lia).
Defined.

(** ** Arguments that are given but empty or zero *)

(** X4. The professional flight search tells a zero from an absent count:
    with adults in 1..9, [children = 0] and [infants = 0] pass validation
    and are sent as zeros, while an empty [returnDate] is left out. *)
Theorem zero_counts_are_sent_empty_dates_are_not
    (w : world) (a : FlightsAmadeus.args) :
  1 <= FlightsAmadeus.adults a <= 9 ->
  FlightsAmadeus.children a = Some 0 ->
  FlightsAmadeus.infants a = Some 0 ->
  FlightsAmadeus.returnDate a = Some "" ->
  let params := FlightsAmadeus.build_params a in
  trace (search_flights_amadeus w a) = [SdkGet flight_offers_search params]
  /\ params !! "children" = Some (JInt 0)
  /\ params !! "infants" = Some (JInt 0)
  /\ params !! "returnDate" = None.
Proof.
  intros Ha Hc Hi Hr params.
  destruct (validate_adults_in_range a Ha) as [Hnz Hin].
  assert (Hv : FlightsAmadeus.validate a = None).
  { unfold FlightsAmadeus.validate. rewrite Hnz, Hin, Hc, Hi. reflexivity. }
  split; [|split; [|split]].
  - unfold search_flights_amadeus. rewrite Hv. apply amadeus_trace.
  - unfold params, FlightsAmadeus.build_params. rewrite Hc.
    peel; cbn [is_not_None opt_json]; unfold set_if; apply lookup_insert_eq.
  - unfold params, FlightsAmadeus.build_params. rewrite Hi.
    peel; cbn [is_not_None opt_json]; unfold set_if; apply lookup_insert_eq.
  - unfold params, FlightsAmadeus.build_params. rewrite Hr.
    cbn [truthy_str String.eqb negb]. peel.
Qed.

Lemma zero_counts_are_sent_empty_dates_are_not_witness :
  let params := FlightsAmadeus.build_params (sample_party 2 (Some 0) (Some 0)) in
  trace (search_flights_amadeus sample_world (sample_party 2 (Some 0) (Some 0)))
    = [SdkGet flight_offers_search params]
  /\ params !! "children" = Some (JInt 0)
  /\ params !! "infants" = Some (JInt 0)
  /\ params !! "returnDate" = None.
Proof.
  apply (zero_counts_are_sent_empty_dates_are_not sample_world
           (sample_party 2 (Some 0) (Some 0)));
    simpl; (reflexivity || lia).
Defined.

(** X5. The consumer hotel search drops what is given but false in
    Python: a zero [sort_by], a zero [bedrooms] and an empty list of
    [children_ages] are not in the request it sends. *)
Theorem zero_and_empty_hotel_filters_are_dropped
    (w : world) (k : string) (a : HotelsSerpapi.args) :
  SERPAPI_KEY w = Some k -> k <> "" ->
  HotelsSerpapi.sort_by a = Some 0 ->
  HotelsSerpapi.bedrooms a = Some 0 ->
  HotelsSerpapi.children_ages a = Some [] ->
  let params := HotelsSerpapi.build_params k a in
  trace (search_hotels_serpapi w a)
    = [HttpGet "https://serpapi.com/search" (Some params) None]
  /\ params !! "sort_by" = None
  /\ params !! "bedrooms" = None
  /\ params !! "children_ages" = None.
Proof.
  intros Hk Hne Hs Hb Hc params.
  split; [apply (serpapi_flight_and_hotel_trace w k Hk Hne)|].
  unfold params, HotelsSerpapi.build_params. rewrite Hs, Hb, Hc.
  cbn [truthy_int truthy_list Z.eqb negb]. repeat split; peel.
Qed.

Lemma zero_and_empty_hotel_filters_are_dropped_witness :
  let params := HotelsSerpapi.build_params "serp-key" sample_bare_hotels in
  trace (search_hotels_serpapi sample_world sample_bare_hotels)
    = [HttpGet "https://serpapi.com/search" (Some params) None]
  /\ params !! "sort_by" = None
  /\ params !! "bedrooms" = None
  /\ params !! "children_ages" = None.
Proof.
  apply (zero_and_empty_hotel_filters_are_dropped sample_world "serp-key"
           sample_bare_hotels); (reflexivity || discriminate).
Defined.

(** X6. A return date given to a consumer flight search that is not a
    round trip is not sent to the provider, yet a successful result
    echoes it in [search_metadata]. *)
Theorem return_date_is_sent_for_round_trips_only
    (w : world) (k : string) (a : FlightsSerpapi.args) (d : string) :
  SERPAPI_KEY w = Some k -> k <> "" ->
  FlightsSerpapi.trip_type a <> 1 ->
  FlightsSerpapi.return_date a = Some d ->
  let params := FlightsSerpapi.build_params k a in
  trace (search_flights_serpapi w a)
    = [HttpGet "https://serpapi.com/search" (Some params) None]
  /\ params !! "return_date" = None
  /\ (forall p, answer (search_flights_serpapi w a) = Success p ->
        exists meta, field "search_metadata" (body p) = Some meta
          /\ field "return_date" meta = Some (JStr d)).
Proof.
  intros Hk Hne Ht Hd params. split; [|split].
  - apply (serpapi_flight_and_hotel_trace w k Hk Hne).
  - unfold params, FlightsSerpapi.build_params.
    destruct (Z.eqb_spec (FlightsSerpapi.trip_type a) 1); [contradiction|].
    rewrite andb_false_r. peel.
  - unfold search_flights_serpapi.
    apply (post_try_except (fun r => forall p, r = Success p -> _)).
    + unfold FlightsSerpapi.normalize. walk. apply post_ret.
      intros p [= <-]. eexists. split; [reflexivity|]. simpl.
      rewrite Hd. reflexivity.
    + intros e p Hp. destruct (serpapi_handler_fails "Google Flights API" e).
      congruence.
Qed.

Lemma return_date_is_sent_for_round_trips_only_witness :
  FlightsSerpapi.build_params "serp-key" sample_one_way !! "return_date" = None
  /\ exists meta, field "search_metadata" (body sample_one_way_found) = Some meta
       /\ field "return_date" meta = Some (JStr "2025-06-30").
Proof.
  destruct (return_date_is_sent_for_round_trips_only sample_world "serp-key"
              sample_one_way "2025-06-30") as (_ & Hp & Hm);
    try (reflexivity || discriminate).
  split; [exact Hp|]. apply (Hm sample_one_way_found). reflexivity.
Defined.

(** ** Failures of the environment and of the providers *)

(** X7. Without a SerpAPI key, unset or empty, each of the four consumer
    tools returns the error naming the variable and makes no request. *)
Theorem consumer_tools_need_the_key (w : world) :
  SERPAPI_KEY w = None \/ SERPAPI_KEY w = Some "" ->
  let refused := Outcome [] (Failure (Mapping (error_dict
                   "SERPAPI_KEY environment variable is required"))) in
  (forall a, search_flights_serpapi w a = refused)
  /\ (forall a, search_hotels_serpapi w a = refused)
  /\ (forall a, search_events_serpapi w a = refused)
  /\ (forall a, lookup_stock w a = refused).
Proof.
  intros Hk refused.
  assert (Hg : get_serpapi_key w
               = raise (ValueError "SERPAPI_KEY environment variable is required")).
  { unfold get_serpapi_key. destruct Hk as [-> | ->]; reflexivity. }
  repeat split; intros a;
    unfold search_flights_serpapi, search_hotels_serpapi, search_events_serpapi,
      lookup_stock; rewrite Hg; reflexivity.
Qed.

Lemma consumer_tools_need_the_key_witness :
  lookup_stock keyless_world sample_stock
    = Outcome [] (Failure (Mapping (error_dict
        "SERPAPI_KEY environment variable is required"))).
Proof.
  apply (consumer_tools_need_the_key keyless_world). left. reflexivity.
Defined.

(** X8. Without an exchange-rate key, unset or empty, the currency
    conversion makes no request; the missing variable is reported through
    the catch-all handler, as an unexpected error. *)
Theorem conversion_needs_the_key (w : world) (a : ConvertCurrency.args) :
  EXCHANGE_RATE_API_KEY w = None \/ EXCHANGE_RATE_API_KEY w = Some "" ->
  convert_currency w a
    = Outcome [] (Failure (Mapping (error_dict
        "Unexpected error: EXCHANGE_RATE_API_KEY environment variable is required"))).
Proof.
  intros Hk. unfold convert_currency, get_exchange_rate_api_key.
  destruct Hk as [-> | ->]; reflexivity.
Qed.

Lemma conversion_needs_the_key_witness :
  convert_currency keyless_world sample_conversion
    = Outcome [] (Failure (Mapping (error_dict
        "Unexpected error: EXCHANGE_RATE_API_KEY environment variable is required"))).
Proof.
  apply (conversion_needs_the_key keyless_world sample_conversion).
  left. reflexivity.
Defined.

Lemma http_answer (w : world) (url : string) (params : option (gmap string json))
    (timeout : option Z) (norm : json -> M reply) (h : exn -> reply) :
  answer (try_except (let* data := requests_get w url params timeout in norm data) h)
    = match http_get w url params timeout with
      | inl e => h e
      | inr d => match snd (norm d) with inr r => r | inl e => h e end
      end.
Proof.
  rewrite answer_try_except, snd_bind. simpl.
  destruct (http_get w url params timeout); reflexivity.
Qed.

Lemma get_exchange_rate_api_key_set (w : world) (k : string) :
  EXCHANGE_RATE_API_KEY w = Some k -> k <> "" ->
  get_exchange_rate_api_key w = ret k.
Proof.
  intros Hk Hne. unfold get_exchange_rate_api_key. rewrite Hk.
  destruct (String.eqb_spec k ""); [contradiction|reflexivity].
Qed.

(** X9. When the keys are set and every HTTP request fails in transport
    with the text [m], each tool that goes over HTTP returns one error
    whose message is its own prefix followed by [m]. *)
Theorem transport_failures_are_reported_per_tool
    (w : world) (k k' m : string) :
  SERPAPI_KEY w = Some k -> k <> "" ->
  EXCHANGE_RATE_API_KEY w = Some k' -> k' <> "" ->
  (forall url params timeout,
     http_get w url params timeout = inl (RequestException m)) ->
  let failed prefix := Failure (Mapping (error_dict (prefix ++ m))) in
  (forall a, answer (search_flights_serpapi w a)
             = failed "Google Flights API request failed: ")
  /\ (forall a, answer (search_hotels_serpapi w a)
                = failed "Google Hotels API request failed: ")
  /\ (forall a, answer (search_events_serpapi w a)
                = failed "Google Events API request failed: ")
  /\ (forall a, answer (lookup_stock w a) = failed "API request failed: ")
  /\ (forall lat lon, answer (get_current_conditions w lat lon)
                      = failed "Weather API request failed: ")
  /\ (forall lat lon hourly, answer (get_weather_forecast w lat lon hourly)
                             = failed "Weather API request failed: ")
  /\ (forall a, answer (convert_currency w a)
                = failed "Currency API request failed: ").
Proof.
  intros Hk Hne Hk' Hne' Hdown failed. repeat split; intros.
  - unfold search_flights_serpapi.
    rewrite (serpapi_answer w (fun key => FlightsSerpapi.build_params key a)
               _ _ k Hk Hne), Hdown. reflexivity.
  - unfold search_hotels_serpapi.
    rewrite (serpapi_answer w (fun key => HotelsSerpapi.build_params key a)
               _ _ k Hk Hne), Hdown. reflexivity.
  - unfold search_events_serpapi.
    rewrite (serpapi_answer w (fun key => EventsSerpapi.build_params key a)
               _ _ k Hk Hne), Hdown. reflexivity.
  - unfold lookup_stock.
    rewrite (serpapi_answer w (fun key => Stock.build_params key a)
               _ _ k Hk Hne), Hdown. reflexivity.
  - unfold get_current_conditions. rewrite http_answer, Hdown. reflexivity.
  - unfold get_weather_forecast. rewrite http_answer, Hdown. reflexivity.
  - unfold convert_currency.
    rewrite (get_exchange_rate_api_key_set w k' Hk' Hne'), bind_ret.
    rewrite http_answer, Hdown. reflexivity.
Qed.

Lemma transport_failures_are_reported_per_tool_witness :
  answer (convert_currency
            (world_with (inl (RequestException "Read timed out"))
               (inr JNull) (inr GeoNone)) sample_conversion)
    = Failure (Mapping (error_dict
        ("Currency API request failed: " ++ "Read timed out"))).
Proof.
  apply (transport_failures_are_reported_per_tool
           (world_with (inl (RequestException "Read timed out"))
              (inr JNull) (inr GeoNone))
           "serp-key" "rate-key" "Read timed out");
    (reflexivity || discriminate).
Defined.

(** X10. When the Amadeus client raises its [ResponseError] with the text
    [m], every professional tool whose arguments pass validation returns
    the one-key error "Amadeus API error: " followed by [m]. *)
Theorem amadeus_errors_are_passed_on
    (w : world) (m : string)
    (flights : FlightsAmadeus.args) (offers : HotelOffers.args) :
  (forall ep params, sdk_get w ep params = inl (ResponseError m)) ->
  FlightsAmadeus.validate flights = None ->
  HotelOffers.validate offers = None ->
  let failed := Failure (json_dumps (error_dict ("Amadeus API error: " ++ m))) in
  answer (search_flights_amadeus w flights) = failed
  /\ answer (search_hotel_offers_amadeus w offers) = failed
  /\ (forall a, answer (search_hotels_amadeus_by_city w a) = failed)
  /\ (forall a, answer (search_hotels_amadeus_geocode w a) = failed)
  /\ (forall a, answer (search_activities_amadeus w a) = failed)
  /\ (forall id, answer (get_activity_details_amadeus w id) = failed).
Proof.
  intros Hsdk Hf Ho failed.
  unfold search_flights_amadeus, search_hotel_offers_amadeus. rewrite Hf, Ho.
  repeat split; intros;
    unfold search_hotels_amadeus_by_city, search_hotels_amadeus_geocode,
      search_activities_amadeus, get_activity_details_amadeus;
    rewrite amadeus_answer, Hsdk; reflexivity.
Qed.

Lemma amadeus_errors_are_passed_on_witness :
  answer (search_hotel_offers_amadeus
            (world_with (inr JNull) (inl (ResponseError "[400]")) (inr GeoNone))
            sample_offers_in_paris)
    = Failure (json_dumps (error_dict ("Amadeus API error: " ++ "[400]"))).
Proof.
  apply (amadeus_errors_are_passed_on
           (world_with (inr JNull) (inl (ResponseError "[400]")) (inr GeoNone))
           "[400]" (sample_party 2 None None) sample_offers_in_paris);
    reflexivity.
Defined.

(** X11. When the Amadeus client lacks the operation ([AttributeError]
    with the text [m]), the two activity tools return an error with a
    [note] on the SDK version, while the hotel listing tools report the
    same failure as an unexpected error, without a note. *)
Theorem missing_sdk_operation_is_noted_for_activities_only
    (w : world) (m : string) :
  (forall ep params, sdk_get w ep params = inl (AttributeError m)) ->
  let noted := Failure (json_dumps (JObj
    [("error", JStr ("Tours and Activities API not available in current SDK version: " ++ m));
     ("note", JStr "This API might require a newer SDK version or special access")])) in
  let unexpected := Failure (json_dumps (error_dict ("Unexpected error: " ++ m))) in
  (forall a, answer (search_activities_amadeus w a) = noted)
  /\ (forall id, answer (get_activity_details_amadeus w id) = noted)
  /\ (forall a, answer (search_hotels_amadeus_by_city w a) = unexpected)
  /\ (forall a, answer (search_hotels_amadeus_geocode w a) = unexpected).
Proof.
  intros Hsdk noted unexpected.
  repeat split; intros;
    unfold search_hotels_amadeus_by_city, search_hotels_amadeus_geocode,
      search_activities_amadeus, get_activity_details_amadeus;
    rewrite amadeus_answer, Hsdk; reflexivity.
Qed.

Lemma missing_sdk_operation_is_noted_for_activities_only_witness :
  answer (search_activities_amadeus
            (world_with (inr JNull)
               (inl (AttributeError "no attribute 'activities'")) (inr GeoNone))
            sample_activities)
    = Failure (json_dumps (JObj
        [("error", JStr ("Tours and Activities API not available in current SDK version: "
                         ++ "no attribute 'activities'"));
         ("note", JStr "This API might require a newer SDK version or special access")])).
Proof.
  apply (missing_sdk_operation_is_noted_for_activities_only
           (world_with (inr JNull)
              (inl (AttributeError "no attribute 'activities'")) (inr GeoNone))
           "no attribute 'activities'").
  reflexivity.
Defined.

(** ** What a professional tool adds to the provider's answer *)





(** ** How many calls a tool makes *)

Lemma silent_currency_normalize w a d : silent (ConvertCurrency.normalize w a d).
Proof.
  unfold ConvertCurrency.normalize, ConvertCurrency.py_float. silence.
Qed.

Lemma silent_geocode_normalize w a r : silent (GeocodeLocation.normalize w a r).
Proof. unfold GeocodeLocation.normalize. silence. Qed.

Lemma serpapi_at_most_one (w : world) (build : string -> gmap string json)
    (norm : json -> M reply) (h : exn -> reply) :
  (forall d, silent (norm d)) ->
  (length (trace (try_except
             (let* api_key := get_serpapi_key w in
              let* data := requests_get w "https://serpapi.com/search"
                             (Some (build api_key)) None in
              norm data) h)) <= 1)%nat.
Proof.
  intros Hs. rewrite trace_try_except. unfold get_serpapi_key.
  destruct (SERPAPI_KEY w) as [k|]; [|simpl; lia].
  destruct (String.eqb k ""); [simpl; lia|].
  rewrite bind_ret, fst_bind_silent by auto. simpl. lia.
Qed.

(** X13. No invocation of any tool makes more than one outbound call, and
    a distance calculation makes none. *)
Theorem at_most_one_outbound_call (w : world) (i : invocation) :
  (length (trace (invoke w i)) <= 1)%nat
  /\ forall a, trace (calculate_distance w a) = [].
Proof.
  split.
  - destruct i as [a|a|a|a|a|a|a|a|id|a|a|lat lon|lat lon h|a|a]; cbn [invoke].
    + apply (serpapi_at_most_one w (fun key => FlightsSerpapi.build_params key a));
        auto with silent.
    + unfold search_flights_amadeus.
      destruct (FlightsAmadeus.validate a); [simpl; lia|].
      rewrite amadeus_trace. simpl. lia.
    + apply (serpapi_at_most_one w (fun key => HotelsSerpapi.build_params key a));
        auto with silent.
    + unfold search_hotels_amadeus_by_city. rewrite amadeus_trace. simpl. lia.
    + unfold search_hotels_amadeus_geocode. rewrite amadeus_trace. simpl. lia.
    + unfold search_hotel_offers_amadeus.
      destruct (HotelOffers.validate a); [simpl; lia|].
      rewrite amadeus_trace. simpl. lia.
    + apply (serpapi_at_most_one w (fun key => EventsSerpapi.build_params key a));
        auto with silent.
    + unfold search_activities_amadeus. rewrite amadeus_trace. simpl. lia.
    + unfold get_activity_details_amadeus. rewrite amadeus_trace. simpl. lia.
    + unfold geocode_location.
      rewrite trace_try_except, fst_bind_silent
        by (intros; apply silent_geocode_normalize). simpl. lia.
    + unfold calculate_distance. rewrite trace_try_except.
      rewrite fst_bind_silent by (intros; apply silent_ret). simpl. lia.
    + unfold get_current_conditions.
      rewrite trace_try_except, fst_bind_silent
        by (intros; apply silent_current_normalize). simpl. lia.
    + unfold get_weather_forecast.
      rewrite trace_try_except, fst_bind_silent
        by (intros; apply silent_forecast_normalize). simpl. lia.
    + unfold convert_currency. rewrite trace_try_except.
      unfold get_exchange_rate_api_key.
      destruct (EXCHANGE_RATE_API_KEY w) as [k|]; [|simpl; lia].
      destruct (String.eqb k ""); [simpl; lia|].
      rewrite bind_ret, fst_bind_silent
        by (intros; apply silent_currency_normalize). simpl. lia.
    + apply (serpapi_at_most_one w (fun key => Stock.build_params key a));
        auto with silent.
  - intros a. unfold calculate_distance. rewrite trace_try_except.
    rewrite fst_bind_silent by (intros; apply silent_ret). reflexivity.
Qed.

(** ** Geocoding *)

(** X14. When the geocoder finds nothing, be it [None] or an empty list,
    the geocoding tool returns, after its one call, the error that quotes
    the location asked for, with a suggestion beside it. *)
Theorem unknown_places_are_reported_by_name
    (w : world) (a : GeocodeLocation.args) :
  geocoder w (GeocodeLocation.location a) (GeocodeLocation.build_params a)
    = inr GeoNone
  \/ geocoder w (GeocodeLocation.location a) (GeocodeLocation.build_params a)
     = inr (GeoMany []) ->
  geocode_location w a
    = Outcome
        [Geocode (GeocodeLocation.location a) (GeocodeLocation.build_params a)]
        (Failure (Mapping (JObj
           [("error", JStr ("Location '" ++ GeocodeLocation.location a ++ "' not found"));
            ("suggestions",
             JStr "Try using a more specific address or well-known landmark name")]))).
Proof.
  intros H. unfold geocode_location, geocode, try_except, bind.
  destruct H as [-> | ->]; reflexivity.
Qed.

Lemma unknown_places_are_reported_by_name_witness :
  geocode_location sample_world sample_geocode
    = Outcome
        [Geocode "Atlantis" (GeocodeLocation.build_params sample_geocode)]
        (Failure (Mapping (JObj
           [("error", JStr ("Location '" ++ "Atlantis" ++ "' not found"));
            ("suggestions",
             JStr "Try using a more specific address or well-known landmark name")]))).
Proof.
  apply (unknown_places_are_reported_by_name sample_world sample_geocode).
  left. reflexivity.
Defined.

(** X15. Asked for several matches, the geocoding tool returns one entry
    per location the geocoder found, in the geocoder's order, each with
    the address, the coordinates and the raw data of its location. *)
Theorem every_match_is_returned_in_order
    (w : world) (a : GeocodeLocation.args) (l : geopy_location)
    (ls : list geopy_location) :
  GeocodeLocation.exactly_one a = false ->
  geocoder w (GeocodeLocation.location a) (GeocodeLocation.build_params a)
    = inr (GeoMany (l :: ls)) ->
  exists j rs,
    answer (geocode_location w a) = Success (Mapping j)
    /\ field "multiple_results" j = Some (JArr rs)
    /\ length rs = length (l :: ls)
    /\ forall n x, (l :: ls) !! n = Some x ->
         exists r, rs !! n = Some r
           /\ field "address" r = Some (JStr (loc_address x))
           /\ field "coordinates" r
              = Some (JObj [("latitude", JFloat (loc_latitude x));
                            ("longitude", JFloat (loc_longitude x))])
           /\ field "raw_data" r = Some (loc_raw x).
Proof.
  intros He Hg.
  set (entry := fun r : geopy_location => JObj
         [("coordinates", GeocodeLocation.coordinates r);
          ("address", JStr (loc_address r)); ("raw_data", loc_raw r)]).
  exists (JObj [("location", JStr (GeocodeLocation.location a));
                ("multiple_results", JArr (entry <$> (l :: ls)));
                ("search_timestamp", JStr (now_isoformat w))]),
         (entry <$> (l :: ls)).
  split; [|split; [reflexivity|split; [apply length_fmap|]]].
  - unfold geocode_location.
    rewrite answer_try_except, snd_bind. unfold geocode. simpl snd. rewrite Hg.
    unfold GeocodeLocation.normalize. rewrite He. reflexivity.
  - intros n x Hx. exists (entry x). split.
    + rewrite list_lookup_fmap, Hx. reflexivity.
    + repeat split; reflexivity.
Qed.

Lemma every_match_is_returned_in_order_witness :
  exists j rs,
    answer (geocode_location (world_with (inr JNull) (inr JNull)
                                (inr (GeoMany sample_places)))
              sample_geocode_many) = Success (Mapping j)
    /\ field "multiple_results" j = Some (JArr rs)
    /\ length rs = length sample_places
    /\ forall n x, sample_places !! n = Some x ->
         exists r, rs !! n = Some r
           /\ field "address" r = Some (JStr (loc_address x))
           /\ field "coordinates" r
              = Some (JObj [("latitude", JFloat (loc_latitude x));
                            ("longitude", JFloat (loc_longitude x))])
           /\ field "raw_data" r = Some (loc_raw x).
Proof.
  apply (every_match_is_returned_in_order
           (world_with (inr JNull) (inr JNull) (inr (GeoMany sample_places)))
           sample_geocode_many); reflexivity.
Defined.







(** ** Distances *)

(** X17. With a unit that lowercases to "miles" or to "nm", a distance
    calculation reports the rounded distance in miles or in nautical
    miles, which is the figure it lists under that unit in [all_units];
    and [all_units] lists the same three figures whatever the unit asked
    for. *)
Theorem miles_and_nautical_miles_agree_with_all_units
    (w : world) (a : CalculateDistance.args) (d : distance) :
  geodesic w (CalculateDistance.lat1 a, CalculateDistance.lon1 a)
             (CalculateDistance.lat2 a, CalculateDistance.lon2 a) = inr d ->
  lower (CalculateDistance.unit a) = "miles"
  \/ lower (CalculateDistance.unit a) = "nm" ->
  let chosen := if String.eqb (lower (CalculateDistance.unit a)) "miles"
                then miles d else nautical d in
  exists j,
    calculate_distance w a = Outcome [] (Success (Mapping j))
    /\ field "distance" j
       = Some (JObj [("value", JFloat (round2 w chosen));
                     ("unit", JStr (lower (CalculateDistance.unit a)))])
    /\ forall u, exists j',
         calculate_distance w (CalculateDistance.with_unit u a)
           = Outcome [] (Success (Mapping j'))
         /\ field "all_units" j'
            = Some (JObj [("kilometers", JFloat (round2 w (kilometers d)));
                          ("miles", JFloat (round2 w (miles d)));
                          ("nautical_miles", JFloat (round2 w (nautical d)))]).
Proof.
  intros Hd Hu chosen. eexists. split; [|split].
  - unfold calculate_distance. rewrite Hd. reflexivity.
  - simpl. unfold CalculateDistance.distance_value, chosen.
    destruct Hu as [-> | ->]; reflexivity.
  - intros u. eexists. unfold calculate_distance. simpl. rewrite Hd.
    split; reflexivity.
Qed.

Lemma miles_and_nautical_miles_agree_with_all_units_witness :
  exists j,
    calculate_distance sample_world (CalculateDistance.with_unit "MILES" sample_distance)
      = Outcome [] (Success (Mapping j))
    /\ field "distance" j
       = Some (JObj [("value", JFloat 62); ("unit", JStr "miles")])
    /\ forall u, exists j',
         calculate_distance sample_world
           (CalculateDistance.with_unit u
              (CalculateDistance.with_unit "MILES" sample_distance))
           = Outcome [] (Success (Mapping j'))
         /\ field "all_units" j'
            = Some (JObj [("kilometers", JFloat 100);
                          ("miles", JFloat 62);
                          ("nautical_miles", JFloat 54)]).
Proof.
  apply (miles_and_nautical_miles_agree_with_all_units sample_world
           (CalculateDistance.with_unit "MILES" sample_distance)
           (Distance 100 62 54)).
  - reflexivity.
  - left. reflexivity.
Defined.

(** ** Currency conversion and stock lookup *)

Lemma currency_answer (w : world) (a : ConvertCurrency.args) (k : string) :
  EXCHANGE_RATE_API_KEY w = Some k -> k <> "" ->
  convert_currency w a
    = Outcome [HttpGet (ConvertCurrency.base_url k a) None (Some 10)]
        match http_get w (ConvertCurrency.base_url k a) None (Some 10) with
        | inl (RequestException m) =>
            Failure (Mapping (error_dict ("Currency API request failed: " ++ m)))
        | inl e => Failure (Mapping (error_dict ("Unexpected error: " ++ str_exn e)))
        | inr data =>
            match snd (ConvertCurrency.normalize w a data) with
            | inr r => r
            | inl (RequestException m) =>
                Failure (Mapping (error_dict ("Currency API request failed: " ++ m)))
            | inl e => Failure (Mapping (error_dict ("Unexpected error: " ++ str_exn e)))
            end
        end.
Proof.
  intros Hk Hne. unfold convert_currency.
  rewrite (get_exchange_rate_api_key_set w k Hk Hne), bind_ret.
  unfold try_except, bind, requests_get.
  destruct (http_get w _ None (Some 10)) as [e|data]; [destruct e; reflexivity|].
  pose proof (silent_currency_normalize w a data) as Hs. unfold silent in Hs.
  destruct (ConvertCurrency.normalize w a data) as [t [e|r]]; simpl in *; subst;
    [destruct e|]; reflexivity.
Qed.

(** X18. When the rate service answers with an object whose [result] is
    not "success", the conversion fails with the provider's own
    [error-type] as its message, word for word, and with
    "ExchangeRate-API error" when the provider names none. *)
Theorem rate_service_refusals_are_passed_on
    (w : world) (a : ConvertCurrency.args) (k : string)
    (kvs : list (string * json)) :
  EXCHANGE_RATE_API_KEY w = Some k -> k <> "" ->
  http_get w (ConvertCurrency.base_url k a) None (Some 10) = inr (JObj kvs) ->
  assoc_get "result" kvs <> Some (JStr "success") ->
  answer (convert_currency w a)
    = Failure (Mapping (JObj
        [("error", match assoc_get "error-type" kvs with
                   | Some e => if truthy e then e else JStr "ExchangeRate-API error"
                   | None => JStr "ExchangeRate-API error"
                   end)])).
Proof.
  intros Hk Hne Hh Hr. rewrite (currency_answer w a k Hk Hne), Hh. simpl.
  unfold ConvertCurrency.normalize. simpl py_get. rewrite bind_ret.
  assert (Hs : ConvertCurrency.is_success
                 match assoc_get "result" kvs with Some v => v | None => JNull end
               = false).
  { destruct (assoc_get "result" kvs) as [[]|]; try reflexivity. simpl.
    destruct (String.eqb_spec s "success"); [subst; contradiction|reflexivity]. }
  rewrite Hs. simpl negb. cbv iota. rewrite bind_ret. simpl.
  unfold py_or. destruct (assoc_get "error-type" kvs) as [e|]; reflexivity.
Qed.

Lemma rate_service_refusals_are_passed_on_witness :
  answer (convert_currency (world_with (inr sample_refusal) (inr JNull) (inr GeoNone))
            sample_conversion)
    = Failure (Mapping (JObj [("error", JStr "unsupported-code")])).
Proof.
  apply (rate_service_refusals_are_passed_on
           (world_with (inr sample_refusal) (inr JNull) (inr GeoNone))
           sample_conversion "rate-key"
           [("result", JStr "error"); ("error-type", JStr "unsupported-code")]);
    (reflexivity || discriminate).
Defined.

(** X19. When the rate service answers "success" with a numeric
    [conversion_rate], the conversion succeeds after its one request: it
    returns the rate as the provider gave it and, as converted amount, the
    amount times the rate, rounded. *)
Theorem conversion_multiplies_and_rounds
    (w : world) (a : ConvertCurrency.args) (k : string)
    (kvs : list (string * json)) (rate : Q) :
  EXCHANGE_RATE_API_KEY w = Some k -> k <> "" ->
  http_get w (ConvertCurrency.base_url k a) None (Some 10) = inr (JObj kvs) ->
  assoc_get "result" kvs = Some (JStr "success") ->
  assoc_get "conversion_rate" kvs = Some (JFloat rate) ->
  exists j conversion,
    convert_currency w a
      = Outcome [HttpGet (ConvertCurrency.base_url k a) None (Some 10)]
          (Success (Mapping j))
    /\ field "exchange_rate" j = Some (JFloat rate)
    /\ field "conversion" j = Some conversion
    /\ field "original_amount" conversion = Some (JFloat (ConvertCurrency.amount a))
    /\ field "converted_amount" conversion
       = Some (JFloat (round2 w (fmul w (ConvertCurrency.amount a) rate))).
Proof.
  intros Hk Hne Hh Hr Hc. rewrite (currency_answer w a k Hk Hne), Hh.
  unfold ConvertCurrency.normalize. simpl py_get. rewrite Hr, Hc, !bind_ret.
  simpl. eexists. eexists. repeat split; reflexivity.
Qed.

Lemma conversion_multiplies_and_rounds_witness :
  exists j conversion,
    convert_currency
      (world_with (inr (sample_rate (JFloat (92 # 100)))) (inr JNull) (inr GeoNone))
      sample_conversion
      = Outcome [HttpGet (ConvertCurrency.base_url "rate-key" sample_conversion)
                   None (Some 10)]
          (Success (Mapping j))
    /\ field "exchange_rate" j = Some (JFloat (92 # 100))
    /\ field "conversion" j = Some conversion
    /\ field "original_amount" conversion = Some (JFloat 100)
    /\ field "converted_amount" conversion
       = Some (JFloat (Qmult 100 (92 # 100))).
Proof.
  apply (conversion_multiplies_and_rounds
           (world_with (inr (sample_rate (JFloat (92 # 100)))) (inr JNull) (inr GeoNone))
           sample_conversion "rate-key"
           [("result", JStr "success"); ("conversion_rate", JFloat (92 # 100))]
           (92 # 100));
    (reflexivity || discriminate).
Defined.

Lemma upper_ascii_idempotent (c : ascii) :
  upper_ascii (upper_ascii c) = upper_ascii c.
Proof.
  destruct c as [b0 b1 b2 b3 b4 b5 b6 b7].
  destruct b0, b1, b2, b3, b4, b5, b6, b7; reflexivity.
Qed.

Lemma upper_idempotent (s : string) : upper (upper s) = upper s.
Proof.
  induction s as [|c r IH]; [reflexivity|].
  cbn [upper]. now rewrite upper_ascii_idempotent, IH.
Qed.

(** X20. Currency codes and stock symbols are read without regard to
    letter case: a conversion or a stock lookup with its codes or its
    symbol put in upper case makes the same call and returns the same
    result. *)
Theorem codes_and_symbols_ignore_case (w : world) :
  (forall a, convert_currency w (upper_codes a) = convert_currency w a)
  /\ (forall a, lookup_stock w (upper_symbol a) = lookup_stock w a).
Proof.
  split; intros a.
  - unfold convert_currency, ConvertCurrency.base_url, ConvertCurrency.normalize,
      upper_codes.
    cbn [ConvertCurrency.from_currency ConvertCurrency.to_currency
         ConvertCurrency.amount ConvertCurrency.language].
    rewrite !upper_idempotent. reflexivity.
  - unfold lookup_stock, Stock.build_params, Stock.query, Stock.normalize,
      upper_symbol.
    cbn [Stock.symbol Stock.exchange Stock.window Stock.language].
    rewrite !upper_idempotent. reflexivity.
Qed.

(** X21. The unit of a distance calculation is read without regard to
    letter case: two units with the same lowercase form give the same
    result. *)
Theorem distance_units_ignore_case
    (w : world) (a : CalculateDistance.args) (u u' : string) :
  lower u = lower u' ->
  calculate_distance w (CalculateDistance.with_unit u a)
    = calculate_distance w (CalculateDistance.with_unit u' a).
Proof.
  intros H. unfold calculate_distance, CalculateDistance.normalize,
    CalculateDistance.distance_value, CalculateDistance.with_unit.
  cbn [CalculateDistance.lat1 CalculateDistance.lon1 CalculateDistance.lat2
       CalculateDistance.lon2 CalculateDistance.unit].
  rewrite H. reflexivity.
Qed.

Lemma distance_units_ignore_case_witness :
  calculate_distance sample_world (CalculateDistance.with_unit "NM" sample_distance)
    = calculate_distance sample_world (CalculateDistance.with_unit "nm" sample_distance).
Proof.
  apply (distance_units_ignore_case sample_world sample_distance "NM" "nm").
  reflexivity.
Defined.

(** ** Weather *)

Lemma current_conditions_answer (w : world) (lat lon : Q) :
  get_current_conditions w lat lon
    = Outcome
        [HttpGet OPEN_METEO_BASE_URL
           (Some (CurrentConditions.build_params lat lon)) (Some 10)]
        match http_get w OPEN_METEO_BASE_URL
                (Some (CurrentConditions.build_params lat lon)) (Some 10) with
        | inl e => weather_handler "weather" e
        | inr data =>
            match snd (CurrentConditions.normalize w lat lon data) with
            | inr r => r
            | inl e => weather_handler "weather" e
            end
        end.
Proof.
  unfold get_current_conditions, try_except, bind, requests_get.
  destruct (http_get w _ _ _) as [e|data]; [reflexivity|].
  pose proof (silent_current_normalize w lat lon data) as Hs. unfold silent in Hs.
  destruct (CurrentConditions.normalize w lat lon data) as [t [e|r]];
    simpl in *; subst; reflexivity.
Qed.

(** X22. When the weather service answers with an object that has
    nothing true in Python under [current_weather] or [current] (a key
    missing, null, or an empty object), the current-conditions tool
    returns the error "Current weather not available" after its one
    request. *)
Theorem no_current_weather_is_an_error
    (w : world) (lat lon : Q) (kvs : list (string * json)) :
  http_get w OPEN_METEO_BASE_URL
    (Some (CurrentConditions.build_params lat lon)) (Some 10) = inr (JObj kvs) ->
  truthy (default JNull (assoc_get "current_weather" kvs)) = false ->
  truthy (default JNull (assoc_get "current" kvs)) = false ->
  get_current_conditions w lat lon
    = Outcome
        [HttpGet OPEN_METEO_BASE_URL
           (Some (CurrentConditions.build_params lat lon)) (Some 10)]
        (Failure (Mapping (error_dict "Current weather not available"))).
Proof.
  intros Hh Hcw Hc. rewrite current_conditions_answer, Hh.
  unfold CurrentConditions.normalize. simpl py_get. rewrite !bind_ret.
  unfold py_or.
  change (match assoc_get "current_weather" kvs with Some v => v | None => JNull end)
    with (default JNull (assoc_get "current_weather" kvs)).
  change (match assoc_get "current" kvs with Some v => v | None => JNull end)
    with (default JNull (assoc_get "current" kvs)).
  rewrite Hcw, Hc. reflexivity.
Qed.

Lemma no_current_weather_is_an_error_witness :
  get_current_conditions
    (world_with (inr (JObj [("current", JObj [])])) (inr JNull) (inr GeoNone)) 48 2
    = Outcome
        [HttpGet OPEN_METEO_BASE_URL
           (Some (CurrentConditions.build_params 48 2)) (Some 10)]
        (Failure (Mapping (error_dict "Current weather not available"))).
Proof.
  apply (no_current_weather_is_an_error
           (world_with (inr (JObj [("current", JObj [])])) (inr JNull) (inr GeoNone))
           48 2 [("current", JObj [])]); reflexivity.
Defined.

(** X23. When the weather service gives no [current_weather] but a
    non-empty object under [current], the current-conditions tool reads
    its six readings from [current]; a reading the provider left out is
    returned as null, not as an error. *)
Theorem current_is_read_when_current_weather_is_missing
    (w : world) (lat lon : Q) (kvs cur : list (string * json)) :
  http_get w OPEN_METEO_BASE_URL
    (Some (CurrentConditions.build_params lat lon)) (Some 10) = inr (JObj kvs) ->
  truthy (default JNull (assoc_get "current_weather" kvs)) = false ->
  assoc_get "current" kvs = Some (JObj cur) -> cur <> [] ->
  let reading k := default JNull (assoc_get k cur) in
  exists j,
    answer (get_current_conditions w lat lon) = Success (Mapping j)
    /\ field "current_conditions" j
       = Some (JObj [("timestamp", reading "time");
                     ("temperature_c", reading "temperature");
                     ("windspeed_kph", reading "windspeed");
                     ("winddirection_deg", reading "winddirection");
                     ("is_day", reading "is_day");
                     ("weathercode", reading "weathercode")]).
Proof.
  intros Hh Hcw Hc Hne reading. rewrite current_conditions_answer, Hh.
  unfold CurrentConditions.normalize. simpl py_get. rewrite !bind_ret.
  unfold py_or.
  change (match assoc_get "current_weather" kvs with Some v => v | None => JNull end)
    with (default JNull (assoc_get "current_weather" kvs)).
  rewrite Hcw, Hc. destruct cur as [|kv cur']; [contradiction|].
  simpl. eexists. split; reflexivity.
Qed.

Lemma current_is_read_when_current_weather_is_missing_witness :
  exists j,
    answer (get_current_conditions
              (world_with (inr (JObj [("current", JObj [("temperature", JInt 21)])]))
                 (inr JNull) (inr GeoNone)) 48 2) = Success (Mapping j)
    /\ field "current_conditions" j
       = Some (JObj [("timestamp", JNull);
                     ("temperature_c", JInt 21);
                     ("windspeed_kph", JNull);
                     ("winddirection_deg", JNull);
                     ("is_day", JNull);
                     ("weathercode", JNull)]).
Proof.
  apply (current_is_read_when_current_weather_is_missing
           (world_with (inr (JObj [("current", JObj [("temperature", JInt 21)])]))
              (inr JNull) (inr GeoNone))
           48 2 [("current", JObj [("temperature", JInt 21)])]
           [("temperature", JInt 21)]);
    (reflexivity || discriminate).
Defined.

Lemma series_at_value (series : list (string * json)) (k : string) (n : nat) :
  assoc_get k series = None \/ (exists vs, assoc_get k series = Some (JArr vs)) ->
  WeatherForecast.series_at (JObj series) k (Z.of_nat n) = ret (value_at series k n).
Proof.
  unfold WeatherForecast.series_at, value_at. simpl py_get.
  intros [Hk | [vs Hk]]; rewrite Hk, bind_ret; simpl WeatherForecast.py_len;
    rewrite bind_ret.
  - destruct (Z.ltb_spec (Z.of_nat n) (Z.of_nat 0)); [lia|reflexivity].
  - destruct (Z.ltb_spec (Z.of_nat n) (Z.of_nat (length vs))) as [Hlt|Hge].
    + rewrite bind_ret. unfold py_or.
      destruct vs as [|v vs']; [simpl in Hlt; lia|]. cbn [truthy].
      unfold WeatherForecast.py_item, py_index.
      destruct (Z.ltb_spec (Z.of_nat n) 0); [lia|].
      destruct (Z.leb_spec 0 (Z.of_nat n)); [|lia].
      destruct (Z.ltb_spec (Z.of_nat n) (Z.of_nat (length (v :: vs')))); [|lia].
      rewrite Nat2Z.id. cbn [andb].
      destruct ((v :: vs') !! n) as [x|] eqn:E; [reflexivity|].
      apply lookup_ge_None in E. lia.
    + rewrite (proj2 (lookup_ge_None vs n)) by lia. reflexivity.
Qed.

Lemma period_fields_value (series : list (string * json))
    (fields : list (string * string)) (n : nat) :
  series_are_lists series fields ->
  WeatherForecast.period_fields (JObj series) fields (Z.of_nat n)
    = ret (map (fun f => (fst f, value_at series (snd f) n)) fields).
Proof.
  induction fields as [|[out k] rest IH]; intros Hwf; [reflexivity|].
  cbn [WeatherForecast.period_fields].
  rewrite series_at_value by (apply (Hwf out k); left).
  rewrite bind_ret, IH, bind_ret; [reflexivity|].
  intros out' k' Hin. apply (Hwf out' k'). now right.
Qed.

Lemma periods_value (series : list (string * json)) (first : string)
    (fields : list (string * string)) (times : list json) (n0 : nat) :
  series_are_lists series fields ->
  WeatherForecast.periods (JObj series) first fields (Z.of_nat n0) times
    = ret (imap (fun n t =>
                   JObj ((first, t)
                         :: map (fun f => (fst f, value_at series (snd f) (n0 + n)))
                              fields))
             times).
Proof.
  intros Hwf. revert n0. induction times as [|t rest IH]; intros n0;
    [reflexivity|].
  cbn [WeatherForecast.periods]. rewrite period_fields_value, bind_ret by exact Hwf.
  replace (Z.of_nat n0 + 1) with (Z.of_nat (S n0)) by lia.
  rewrite IH, bind_ret. cbn [imap]. apply (f_equal ret).
  rewrite Nat.add_0_r. apply (f_equal (cons _)).
  apply imap_ext. intros i x _. simpl. now rewrite Nat.add_succ_r.
Qed.

(** X24. When the weather service answers with an object whose forecast
    block (hourly or daily, as asked) has a list of times and series that
    are lists or missing, the forecast succeeds with exactly one period
    per time, in the provider's order; each period shows the time and, for
    every series, the element at the same position, or null where the
    series is missing or shorter than the list of times. *)
Theorem forecast_has_one_period_per_time
    (w : world) (lat lon : Q) (hourly : bool)
    (kvs series : list (string * json)) (times : list json) :
  let fields := if hourly then WeatherForecast.hourly_outputs
                else WeatherForecast.daily_outputs in
  http_get w OPEN_METEO_BASE_URL
    (Some (WeatherForecast.build_params lat lon hourly)) (Some 10)
    = inr (JObj kvs) ->
  assoc_get (if hourly then "hourly" else "daily") kvs = Some (JObj series) ->
  assoc_get "time" series = Some (JArr times) ->
  series_are_lists series fields ->
  exists j ps,
    answer (get_weather_forecast w lat lon hourly) = Success (Mapping j)
    /\ field "forecast_periods" j = Some (JArr ps)
    /\ ps = periods_of series (if hourly then "time" else "date") fields times
    /\ length ps = length times.
Proof.
  intros fields Hh Hs Ht Hwf. unfold get_weather_forecast.
  rewrite http_answer, Hh. unfold WeatherForecast.normalize.
  simpl py_get. rewrite Hs, bind_ret. simpl py_get. rewrite Ht, bind_ret.
  simpl WeatherForecast.py_iter. rewrite bind_ret.
  rewrite (periods_value series _ _ times 0) by exact Hwf.
  rewrite !bind_ret. simpl snd.
  eexists. eexists. split; [reflexivity|]. split; [reflexivity|].
  split; [reflexivity|]. apply length_imap.
Qed.

Lemma forecast_has_one_period_per_time_witness :
  exists j ps,
    answer (get_weather_forecast
              (world_with (inr (JObj [("daily", JObj sample_daily)]))
                 (inr JNull) (inr GeoNone)) 48 2 false) = Success (Mapping j)
    /\ field "forecast_periods" j = Some (JArr ps)
    /\ ps = periods_of sample_daily "date" WeatherForecast.daily_outputs
              [JStr "2025-06-15"; JStr "2025-06-16"; JStr "2025-06-17"]
    /\ length ps = 3%nat.
Proof.
  apply (forecast_has_one_period_per_time
           (world_with (inr (JObj [("daily", JObj sample_daily)]))
              (inr JNull) (inr GeoNone)) 48 2 false
           [("daily", JObj sample_daily)] sample_daily
           [JStr "2025-06-15"; JStr "2025-06-16"; JStr "2025-06-17"]);
    try reflexivity.
  intros out k Hin. unfold WeatherForecast.daily_outputs in Hin.
  repeat (apply elem_of_cons in Hin as [Hin|Hin];
          [injection Hin as -> ->; first [left; reflexivity | right; eexists; reflexivity]|]).
  inversion Hin.
Defined.

(** ** More on the consumer searches *)

(** X25. An event search with a date filter and no event type sends the
    date filter under [htichips]; and a location, when given, is not a
    parameter of its own but is appended to the query after " in ". *)
Theorem date_filter_and_location_of_an_event_search
    (w : world) (k : string) (a : EventsSerpapi.args) (d l : string) :
  SERPAPI_KEY w = Some k -> k <> "" ->
  EventsSerpapi.date_filter a = Some d -> d <> "" ->
  truthy_str (EventsSerpapi.event_type a) = false ->
  EventsSerpapi.location a = Some l -> l <> "" ->
  let params := EventsSerpapi.build_params k a in
  trace (search_events_serpapi w a)
    = [HttpGet "https://serpapi.com/search" (Some params) None]
  /\ params !! "htichips" = Some (JStr ("date:" ++ d))
  /\ params !! "q" = Some (JStr (EventsSerpapi.query a ++ " in " ++ l))
  /\ params !! "location" = None.
Proof.
  intros Hk Hne Hd Hdne He Hl Hlne params.
  split; [apply (events_trace w a k Hk Hne)|].
  unfold params, EventsSerpapi.build_params, EventsSerpapi.search_query.
  rewrite He, Hd, Hl. cbn [truthy_str default].
  destruct (String.eqb_spec d ""); [contradiction|].
  destruct (String.eqb_spec l ""); [contradiction|]. cbn [negb].
  split; [|split].
  - rewrite set_if_false. unfold set_if. apply lookup_insert_eq.
  - peel; unfold set_if; rewrite !lookup_insert_ne by done;
      apply lookup_insert_eq.
  - peel; unfold set_if; rewrite !lookup_insert_ne by done; apply lookup_empty.
Qed.

Lemma date_filter_and_location_of_an_event_search_witness :
  let params := EventsSerpapi.build_params "serp-key" sample_events_by_date in
  trace (search_events_serpapi sample_world sample_events_by_date)
    = [HttpGet "https://serpapi.com/search" (Some params) None]
  /\ params !! "htichips" = Some (JStr ("date:" ++ "weekend"))
  /\ params !! "q" = Some (JStr ("food festivals" ++ " in " ++ "Tokyo Shibuya"))
  /\ params !! "location" = None.
Proof.
  apply (date_filter_and_location_of_an_event_search sample_world "serp-key"
           sample_events_by_date "weekend" "Tokyo Shibuya");
    (reflexivity || discriminate).
Defined.

Lemma travel_class_label_out_of_range (c : Z) :
  c < -3 \/ 4 < c ->
  FlightsSerpapi.travel_class_label c
    = inl (IndexError "list index out of range").
Proof.
  intros Hc. unfold FlightsSerpapi.travel_class_label, py_index.
  cbn [length FlightsSerpapi.travel_class_table].
  destruct (Z.ltb_spec (c - 1) 0).
  - destruct (Z.leb_spec 0 (c - 1 + Z.of_nat 4)); [|reflexivity].
    destruct (Z.ltb_spec (c - 1 + Z.of_nat 4) (Z.of_nat 4)); [|reflexivity].
    lia.
  - destruct (Z.leb_spec 0 (c - 1)); [|reflexivity].
    destruct (Z.ltb_spec (c - 1) (Z.of_nat 4)); [|reflexivity]. lia.
Qed.

(** X26. A consumer flight search with a travel class below -3 or above 4
    is not stopped before the request: the request is made, and whatever
    the provider answers, the search then fails with
    "Unexpected error: list index out of range". *)
Theorem travel_class_out_of_range_fails_after_the_request
    (w : world) (k : string) (a : FlightsSerpapi.args) (fd : json) :
  SERPAPI_KEY w = Some k -> k <> "" ->
  http_get w "https://serpapi.com/search"
    (Some (FlightsSerpapi.build_params k a)) None = inr fd ->
  FlightsSerpapi.travel_class a < -3 \/ 4 < FlightsSerpapi.travel_class a ->
  trace (search_flights_serpapi w a)
    = [HttpGet "https://serpapi.com/search"
         (Some (FlightsSerpapi.build_params k a)) None]
  /\ answer (search_flights_serpapi w a)
     = Failure (Mapping (error_dict "Unexpected error: list index out of range")).
Proof.
  intros Hk Hne Hh Hc. split; [apply (serpapi_flight_and_hotel_trace w k Hk Hne)|].
  unfold search_flights_serpapi.
  rewrite (serpapi_answer w (fun key => FlightsSerpapi.build_params key a)
             _ _ k Hk Hne), Hh.
  unfold FlightsSerpapi.normalize.
  rewrite (travel_class_label_out_of_range _ Hc). reflexivity.
Qed.

Lemma travel_class_out_of_range_fails_after_the_request_witness :
  trace (search_flights_serpapi sample_world (sample_class 5))
    = [HttpGet "https://serpapi.com/search"
         (Some (FlightsSerpapi.build_params "serp-key" (sample_class 5))) None]
  /\ answer (search_flights_serpapi sample_world (sample_class 5))
     = Failure (Mapping (error_dict "Unexpected error: list index out of range")).
Proof.
  apply (travel_class_out_of_range_fails_after_the_request sample_world
           "serp-key" (sample_class 5) sample_payload);
    (reflexivity || discriminate || (right; reflexivity)).
Defined.

Lemma travel_class_label_wraps (c : Z) :
  -3 <= c <= 4 ->
  FlightsSerpapi.travel_class_label c
    = inr (default "" (FlightsSerpapi.travel_class_table !! Z.to_nat ((c - 1) mod 4))).
Proof.
  intros Hc.
  assert (H : c = -3 \/ c = -2 \/ c = -1 \/ c = 0 \/ c = 1 \/ c = 2 \/ c = 3 \/ c = 4)
    by lia.
  destruct H as [->|[->|[->|[->|[->|[->|[->| ->]]]]]]]; reflexivity.
Qed.

(** X27. In a successful consumer flight search the label of a travel
    class from -3 to 4 is the entry of the four-label table at position
    [(travel_class - 1) mod 4]: 1 to 4 are Economy, Premium economy,
    Business and First, and zero and the negatives count from the end, so
    that 0 is labelled First. *)
Theorem travel_class_labels_count_from_the_end
    (w : world) (a : FlightsSerpapi.args) (p : payload) :
  -3 <= FlightsSerpapi.travel_class a <= 4 ->
  answer (search_flights_serpapi w a) = Success p ->
  exists meta,
    field "search_metadata" (body p) = Some meta
    /\ field "travel_class" meta
       = Some (JStr (default "" (FlightsSerpapi.travel_class_table
                       !! Z.to_nat ((FlightsSerpapi.travel_class a - 1) mod 4)))).
Proof.
  intros Hc. revert p. unfold search_flights_serpapi.
  apply (post_try_except (fun r => forall p, r = Success p -> _)).
  - unfold FlightsSerpapi.normalize. rewrite (travel_class_label_wraps _ Hc).
    change (lift (inr ?x)) with (ret x).
    apply post_bind, post_any. intros key. apply post_bind, post_any. intros fd.
    rewrite bind_ret. walk. apply post_ret.
    intros p [= <-]. eexists. split; reflexivity.
  - intros e p Hp. destruct (serpapi_handler_fails "Google Flights API" e).
    congruence.
Qed.

Lemma travel_class_labels_count_from_the_end_witness :
  exists meta,
    field "search_metadata" (body (sample_class_found sample_world 0)) = Some meta
    /\ field "travel_class" meta = Some (JStr "First").
Proof.
  apply (travel_class_labels_count_from_the_end sample_world (sample_class 0)
           (sample_class_found sample_world 0)).
  - simpl. lia.
  - reflexivity.
Defined.



